(** * Stock reconstruction for bike-sharing stations: [create_stock_csv.py]

    A shallow embedding of the functions that carry the algorithm of
    [create_stock_csv.py]:

    - [calculate_stock_for_initial_value] (the simulator),
    - [find_optimal_initial_stock] (the exhaustive scan over initial stocks),
    - the grouping loop of [create_stock_csv] up to the list [results],
    - the capacity dictionary built by [load_data].

    Reading and writing the CSV files, the two [sort_values] calls and the
    report printed by [main] are not modelled.

    Numbers. The script works on pandas columns; [net_demand], the capacity
    and the stock are numeric cells.  They are modelled as exact rationals
    [Q]; numeric equality is [Qeq] ([==]) and the comparisons of the script
    are the boolean tests [Qltb].  Candidate initial stocks are Python [int]s
    ([Z]); [float('inf')] is the constructor [PInf] of [ext].  Rounding of
    floating-point sums, missing values in [net_demand] or [hour], and
    infinite capacities (on which [int(capacity)] raises [OverflowError])
    are outside the model: capacities are finite numbers or missing.

    Data frames are lists of rows in index order.  A Python [dict] is an
    association list in insertion order, which is the order in which
    [.items()] yields its entries. *)

From Stdlib Require Import List ZArith QArith Qabs Qminmax Qround Lia Lqa Bool.
From Stdlib Require Import Sorting.Sorted Sorting.Permutation.
Import ListNotations.

Set Implicit Arguments.

(* ------------------------------------------------------------------ *)
(** * Python exceptions as an error monad *)

Inductive pyerr : Type :=
| IndexError      (* [.iloc[0]] on an empty selection *)
| AttributeError. (* [None.items()] *)

Inductive result (A : Type) : Type :=
| Ok  (a : A)
| Err (e : pyerr).

Arguments Ok {A} a.
Arguments Err {A} e.

Definition bind {A B : Type} (m : result A) (k : A -> result B) : result B :=
  match m with
  | Ok a => k a
  | Err e => Err e
  end.

Declare Scope py_scope.
Delimit Scope py_scope with py.
Notation "x <- m ;; k" := (bind m (fun x => k))
  (at level 61, m at next level, right associativity) : py_scope.
Notation "' p <- m ;; k" := (bind m (fun x => let p := x in k))
  (at level 61, p pattern, m at next level, right associativity) : py_scope.

(* ------------------------------------------------------------------ *)
(** * Numbers *)

Open Scope Q_scope.

(** [x < y] as the script evaluates it. *)
Definition Qltb (x y : Q) : bool :=
  (Qnum x * QDen y <? Qnum y * QDen x)%Z.

(** Python's [int(x)]: truncation toward zero. *)
Definition int (x : Q) : Z := Z.quot (Qnum x) (Zpos (Qden x)).

(** [float('inf')] together with the finite numbers. *)
Inductive ext : Type :=
| Fin (q : Q)
| PInf.

(** [t < m] where [m] may be [float('inf')]. *)
Definition lt_ext (t : Q) (m : ext) : bool :=
  match m with
  | Fin q => Qltb t q
  | PInf => true
  end.

(** [m <= t] for a possibly infinite [m]. *)
Definition ext_le (m : ext) (t : Q) : Prop :=
  match m with
  | Fin q => q <= t
  | PInf => False
  end.

(** [range(n)]. *)
Definition range (n : Z) : list Z :=
  map Z.of_nat (seq 0 (Z.to_nat n)).

(* ------------------------------------------------------------------ *)
(** * Data frames, [unique], [sorted] and dictionaries *)

Record Row : Type := mkRow {
  day : Z;
  hour : Z;
  loc_id : Z;
  net_demand : Q
}.

Definition DataFrame : Type := list Row.

(** [Series.unique()]: distinct values in order of first appearance. *)
Fixpoint unique_acc (seen l : list Z) : list Z :=
  match l with
  | [] => []
  | x :: r =>
      if existsb (Z.eqb x) seen then unique_acc seen r
      else x :: unique_acc (x :: seen) r
  end.

Definition unique (l : list Z) : list Z := unique_acc [] l.

(** [sorted(...)] on integers. *)
Fixpoint insert_sorted (x : Z) (l : list Z) : list Z :=
  match l with
  | [] => [x]
  | y :: r => if (x <=? y)%Z then x :: l else y :: insert_sorted x r
  end.

Fixpoint sorted (l : list Z) : list Z :=
  match l with
  | [] => []
  | x :: r => insert_sorted x (sorted r)
  end.

(** [df[df['hour'] == h]]. *)
Definition select_hour (df : DataFrame) (h : Z) : DataFrame :=
  filter (fun r => (hour r =? h)%Z) df.

Definition select_day (df : DataFrame) (d : Z) : DataFrame :=
  filter (fun r => (day r =? d)%Z) df.

Definition select_loc (df : DataFrame) (l : Z) : DataFrame :=
  filter (fun r => (loc_id r =? l)%Z) df.

(** [.iloc[0]]: first row of a selection, [IndexError] when it is empty. *)
Definition iloc0 (df : DataFrame) : result Row :=
  match df with
  | [] => Err IndexError
  | r :: _ => Ok r
  end.

(** A [dict] from hours to stock values, in insertion order. *)
Definition dict : Type := list (Z * Q).

(** [d[k] = v]: overwrite in place when the key is present, append
    otherwise. *)
Fixpoint dict_set (k : Z) (v : Q) (d : dict) : dict :=
  match d with
  | [] => [(k, v)]
  | (k', v') :: r =>
      if (k' =? k)%Z then (k, v) :: r else (k', v') :: dict_set k v r
  end.

Definition keys (d : dict) : list Z := map fst d.
Definition values (d : dict) : list Q := map snd d.

(* ------------------------------------------------------------------ *)
(** * [calculate_stock_for_initial_value] *)

Open Scope py_scope.

(** The body of [for hour in hours], iterated; the loop variables
    [stock_by_hour], [truncations] and [current_stock] are threaded. *)
Fixpoint hours_loop (df_day_station : DataFrame) (capacity : Q)
    (hours : list Z) (stock_by_hour : dict) (truncations current_stock : Q)
  : result (dict * Q) :=
  match hours with
  | [] => Ok (stock_by_hour, truncations)
  | hour :: hours' =>
      let stock_by_hour := dict_set hour current_stock stock_by_hour in
      row <- iloc0 (select_hour df_day_station hour) ;;
      let net_demand := net_demand row in
      let new_stock := current_stock + net_demand in
      if Qltb new_stock 0 then
        hours_loop df_day_station capacity hours' stock_by_hour
                   (truncations + Qabs new_stock) 0
      else if Qltb capacity new_stock then
        hours_loop df_day_station capacity hours' stock_by_hour
                   (truncations + (new_stock - capacity)) capacity
      else
        hours_loop df_day_station capacity hours' stock_by_hour
                   truncations new_stock
  end.

Definition calculate_stock_for_initial_value
    (df_day_station : DataFrame) (initial_stock capacity : Q)
  : result (dict * Q) :=
  let hours := sorted (unique (map hour df_day_station)) in
  hours_loop df_day_station capacity hours [] 0 initial_stock.

(* ------------------------------------------------------------------ *)
(** * [find_optimal_initial_stock] *)

(** The loop variables of the scan. *)
Record scan_state : Type := mkScan {
  best_initial_stock : Z;
  best_stock_by_hour : option dict;
  min_truncations : ext
}.

Definition scan_init : scan_state :=
  mkScan 0 None PInf.

(** One iteration of [for initial_stock in range(capacity_int + 1)]. *)
Definition scan_body (df_day_station : DataFrame) (capacity : Q)
    (initial_stock : Z) (st : scan_state) : result scan_state :=
  '(stock_by_hour, truncations) <-
     calculate_stock_for_initial_value df_day_station
       (inject_Z initial_stock) capacity ;;
  if lt_ext truncations (min_truncations st) then
    Ok (mkScan initial_stock (Some stock_by_hour) (Fin truncations))
  else
    Ok st.

Fixpoint scan_loop (df_day_station : DataFrame) (capacity : Q)
    (candidates : list Z) (st : scan_state) : result scan_state :=
  match candidates with
  | [] => Ok st
  | initial_stock :: rest =>
      st' <- scan_body df_day_station capacity initial_stock st ;;
      scan_loop df_day_station capacity rest st'
  end.

Definition find_optimal_initial_stock
    (df_day_station : DataFrame) (capacity : Q) : result scan_state :=
  let capacity_int := int capacity in
  scan_loop df_day_station capacity (range (capacity_int + 1)) scan_init.

(* ------------------------------------------------------------------ *)
(** * The grouping loop of [create_stock_csv] *)

(** A cell of the capacity table: a number, or pandas' missing value. *)
Inductive cell : Type :=
| Num (q : Q)
| NaN.

(** [capacity_dict], keyed by [loc_id]. *)
Definition capacity_table : Type := list (Z * cell).

(** [capacity_dict.get(loc_id)]; [None] is Python's [None]. *)
Fixpoint dict_get (k : Z) (d : capacity_table) : option cell :=
  match d with
  | [] => None
  | (k', v) :: r => if (k' =? k)%Z then Some v else dict_get k r
  end.

(** A row appended to [results]: the input row with the three added
    columns. *)
Record StockRow : Type := mkStockRow {
  source_row : Row;
  stock : Q;
  initial_stock : Z;
  total_truncations : ext
}.

(** [for hour, stock in stock_by_hour.items(): ... results.append(row)]. *)
Fixpoint items_loop (df_day_station : DataFrame) (optimal_initial : Z)
    (truncations : ext) (items : dict) (results : list StockRow)
  : result (list StockRow) :=
  match items with
  | [] => Ok results
  | (hour, stock) :: items' =>
      row <- iloc0 (select_hour df_day_station hour) ;;
      items_loop df_day_station optimal_initial truncations items'
        (results ++ [mkStockRow row stock optimal_initial truncations])
  end.

(** The body of the inner [for loc_id in unique_stations] once
    [df_day_station] and [capacity_dict.get(loc_id)] are known.  The two
    [continue] branches leave [results] as it is; [None.items()] raises. *)
Definition group_body (df_day_station : DataFrame) (capacity : option cell)
    (results : list StockRow) : result (list StockRow) :=
  if (length df_day_station =? 0)%nat then Ok results
  else
    match capacity with
    | None => Ok results
    | Some NaN => Ok results
    | Some (Num capacity) =>
        st <- find_optimal_initial_stock df_day_station capacity ;;
        match best_stock_by_hour st with
        | None => Err AttributeError
        | Some stock_by_hour =>
            items_loop df_day_station (best_initial_stock st)
              (min_truncations st) stock_by_hour results
        end
    end.

Fixpoint stations_loop (df_day : DataFrame) (capacity_dict : capacity_table)
    (unique_stations : list Z) (results : list StockRow)
  : result (list StockRow) :=
  match unique_stations with
  | [] => Ok results
  | loc_id :: rest =>
      let df_day_station := select_loc df_day loc_id in
      results' <- group_body df_day_station (dict_get loc_id capacity_dict)
                    results ;;
      stations_loop df_day capacity_dict rest results'
  end.

Fixpoint days_loop (df_test : DataFrame) (capacity_dict : capacity_table)
    (unique_days unique_stations : list Z) (results : list StockRow)
  : result (list StockRow) :=
  match unique_days with
  | [] => Ok results
  | day :: rest =>
      let df_day := select_day df_test day in
      results' <- stations_loop df_day capacity_dict unique_stations
                    results ;;
      days_loop df_test capacity_dict rest unique_stations results'
  end.

(** The loops of [create_stock_csv] (lines 107-149): the value is the list
    [results].  The construction of the two frames from [results] and the
    final [sort_values] (lines 151-165) are not part of this definition; on
    an empty [results] they raise a [KeyError], so a statement about
    [create_stock_csv] here reads as a statement about [results]. *)
Definition create_stock_csv (df_test : DataFrame)
    (capacity_dict : capacity_table) : result (list StockRow) :=
  let unique_days := sorted (unique (map day df_test)) in
  let unique_stations := sorted (unique (map loc_id df_test)) in
  days_loop df_test capacity_dict unique_days unique_stations [].

Close Scope py_scope.

(* ------------------------------------------------------------------ *)
(** * Derived definitions *)

(** The list of hours the simulator iterates over. *)
Definition hours_of (df : DataFrame) : list Z :=
  sorted (unique (map hour df)).

(** ** The simulator as recursion over (hour, demand) pairs *)

(** The demand the loop reads for hour [h]: the [net_demand] of the first
    row of [df] whose hour is [h]. *)
Definition first_demand (df : DataFrame) (h : Z) : Q :=
  match select_hour df h with
  | [] => 0
  | r :: _ => net_demand r
  end.

(** The (hour, demand) pairs consumed by the loop, in iteration order. *)
Definition ordered_net_demands (df : DataFrame) : list (Z * Q) :=
  map (fun h => (h, first_demand df h)) (hours_of df).

(** Amount added to [truncations] for a given [new_stock]. *)
Definition penalty (capacity new_stock : Q) : Q :=
  if Qltb new_stock 0 then Qabs new_stock
  else if Qltb capacity new_stock then new_stock - capacity
  else 0.

(** Value of [truncations] after the hour. *)
Definition bump (capacity t new_stock : Q) : Q :=
  if Qltb new_stock 0 then t + Qabs new_stock
  else if Qltb capacity new_stock then t + (new_stock - capacity)
  else t.

(** Value of [current_stock] after the clamp. *)
Definition clamp (capacity new_stock : Q) : Q :=
  if Qltb new_stock 0 then 0
  else if Qltb capacity new_stock then capacity
  else new_stock.

(** Entries written to [stock_by_hour], in order. *)
Fixpoint trace (capacity : Q) (ds : list (Z * Q)) (current_stock : Q) : dict :=
  match ds with
  | [] => []
  | (h, d) :: ds' =>
      (h, current_stock)
      :: trace capacity ds' (clamp capacity (current_stock + d))
  end.

(** Final value of [truncations], starting from the accumulator [t]. *)
Fixpoint total (capacity : Q) (ds : list (Z * Q)) (t current_stock : Q) : Q :=
  match ds with
  | [] => t
  | (h, d) :: ds' =>
      total capacity ds' (bump capacity t (current_stock + d))
            (clamp capacity (current_stock + d))
  end.

(** The same total as a sum of penalties. *)
Fixpoint cost (capacity : Q) (ds : list (Z * Q)) (current_stock : Q) : Q :=
  match ds with
  | [] => 0
  | (h, d) :: ds' =>
      penalty capacity (current_stock + d)
      + cost capacity ds' (clamp capacity (current_stock + d))
  end.

(** ** Ranges and sums *)

(** [x] lies in [[0, capacity]]. *)
Definition in_range (capacity x : Q) : Prop := 0 <= x /\ x <= capacity.

(** The two-sided formula [max(0, -x) + max(0, x - capacity)]. *)
Definition excess (capacity x : Q) : Q :=
  Qmax 0 (- x) + Qmax 0 (x - capacity).

(** Initial stock plus running cumulative demand, no clamping. *)
Fixpoint running (s : Q) (ds : list (Z * Q)) : list Q :=
  match ds with
  | [] => []
  | (_, d) :: ds' => (s + d) :: running (s + d) ds'
  end.

Definition unclamped_trajectory (df : DataFrame) (initial_stock : Q) : list Q :=
  initial_stock :: running initial_stock (ordered_net_demands df).

Definition sumQ (l : list Q) : Q := fold_right Qplus 0 l.

(** The penalties recomputed from the recorded entries: for an entry
    [(h, s)] the hour's [new_stock] is [s + first_demand df h]. *)
Definition recorded_excess (df : DataFrame) (capacity : Q) (sbh : dict) : Q :=
  sumQ (map (fun e => excess capacity (snd e + first_demand df (fst e))) sbh).

(** The recorded stocks follow the loop: each entry after the first holds
    the clamp of the previous entry's stock plus the demand of the first
    record of the previous entry's hour. *)
Fixpoint clamped_chain (df : DataFrame) (capacity : Q) (sbh : dict) : Prop :=
  match sbh with
  | [] => True
  | (h1, s1) :: rest =>
      match rest with
      | [] => True
      | (_, s2) :: _ => s2 = clamp capacity (s1 + first_demand df h1)
      end /\ clamped_chain df capacity rest
  end.


(** The formula of the specification, word for word: the sum over all hours
    of [max(0, -u) + max(0, u - capacity)] where [u] is the initial stock
    plus the cumulative demand, with no clamping between the hours. *)
Definition spec_unclamped_truncation
    (df : DataFrame) (initial_stock capacity : Q) : Q :=
  sumQ (map (excess capacity)
            (running initial_stock (ordered_net_demands df))).

(** ** The scan invariant *)

(** What the simulator returns for the candidate [k]. *)
Definition traj_of (df : DataFrame) (capacity : Q) (k : Z) : dict :=
  trace capacity (ordered_net_demands df) (inject_Z k).

Definition trunc_of (df : DataFrame) (capacity : Q) (k : Z) : Q :=
  total capacity (ordered_net_demands df) 0 (inject_Z k).

(** State of the loop variables once the candidates [seen] are done. *)
Definition scan_inv (df : DataFrame) (capacity : Q)
    (seen : list Z) (st : scan_state) : Prop :=
  (seen = [] /\ st = scan_init) \/
  (In (best_initial_stock st) seen /\
   best_stock_by_hour st = Some (traj_of df capacity (best_initial_stock st)) /\
   min_truncations st = Fin (trunc_of df capacity (best_initial_stock st)) /\
   (forall k, In k seen ->
              trunc_of df capacity (best_initial_stock st)
              <= trunc_of df capacity k) /\
   (forall k, In k seen -> (k < best_initial_stock st)%Z ->
              trunc_of df capacity (best_initial_stock st)
              < trunc_of df capacity k)).

(** ** The scan as a transition system *)

(** A configuration: the candidates still to try and the loop variables. *)
Definition config : Type := (list Z * scan_state)%type.

(** One iteration of the [for] loop.  The simulator call must return; the
    incumbent is replaced exactly when the new truncation is strictly
    smaller. *)
Inductive scan_step (df : DataFrame) (capacity : Q)
  : config -> config -> Prop :=
| step_improve (c : Z) (rest : list Z) (st : scan_state) (sbh : dict) (t : Q) :
    calculate_stock_for_initial_value df (inject_Z c) capacity = Ok (sbh, t) ->
    lt_ext t (min_truncations st) = true ->
    scan_step df capacity (c :: rest, st)
              (rest, mkScan c (Some sbh) (Fin t))
| step_keep (c : Z) (rest : list Z) (st : scan_state) (sbh : dict) (t : Q) :
    calculate_stock_for_initial_value df (inject_Z c) capacity = Ok (sbh, t) ->
    lt_ext t (min_truncations st) = false ->
    scan_step df capacity (c :: rest, st) (rest, st).

(** A complete run: iterate until no candidate is left, then return the
    loop variables. *)
Inductive scan_run (df : DataFrame) (capacity : Q)
  : config -> scan_state -> Prop :=
| run_done (st : scan_state) :
    scan_run df capacity ([], st) st
| run_step (cfg cfg' : config) (res : scan_state) :
    scan_step df capacity cfg cfg' ->
    scan_run df capacity cfg' res ->
    scan_run df capacity cfg res.

(** A run of [find_optimal_initial_stock] on [(df, capacity)] that returns
    [res]. *)
Definition returns (df : DataFrame) (capacity : Q) (res : scan_state) : Prop :=
  scan_run df capacity (range (int capacity + 1), scan_init) res.

(** ** Frames with several records for one hour *)

(** The frame without the later records of an hour already seen. *)
Fixpoint first_rows_acc (seen : list Z) (df : DataFrame) : DataFrame :=
  match df with
  | [] => []
  | r :: rest =>
      if existsb (Z.eqb (hour r)) seen then first_rows_acc seen rest
      else r :: first_rows_acc (hour r :: seen) rest
  end.

Definition first_rows (df : DataFrame) : DataFrame := first_rows_acc [] df.

(** ** Sample groups *)

(** Capacity 10 with hourly demands +5, -3, +8, -2. *)
Definition df_scenario_a : DataFrame :=
  [mkRow 1 0 7 5; mkRow 1 1 7 (-3); mkRow 1 2 7 8; mkRow 1 3 7 (-2)].

(** A group that runs empty in its first hour. *)
Definition df_underflow : DataFrame :=
  [mkRow 1 0 7 (-5); mkRow 1 1 7 3].

(** A single hour with half a bike leaving. *)
Definition df_half : DataFrame :=
  [mkRow 1 0 7 (-1 # 2)].

(** Demands +2, -2: they cancel and never clamp from an empty station. *)
Definition df_balanced : DataFrame :=
  [mkRow 1 0 7 2; mkRow 1 1 7 (-2)].

(** Hour 1 listed before hour 0, and hour 0 recorded twice. *)
Definition df_duplicates : DataFrame :=
  [mkRow 1 1 7 4; mkRow 1 0 7 2; mkRow 1 0 7 100].

(** What the scan returns on [df_underflow] with capacity 10. *)
Definition res_underflow : scan_state :=
  mkScan 5 (Some [(0%Z, 5); (1%Z, 0)]) (Fin 0).

(** ** Measures of a group *)

(** Sum of the absolute demands the loop reads. *)
Definition total_abs_demand (df : DataFrame) : Q :=
  sumQ (map (fun e => Qabs (snd e)) (ordered_net_demands df)).


(** ** The grouping loop, group by group *)

(** [df_test[df_test['day'] == d]] restricted to station [l]. *)
Definition group_of (df_test : DataFrame) (d l : Z) : DataFrame :=
  select_loc (select_day df_test d) l.

(** First record of hour [h] in a group. *)
Definition first_row (df : DataFrame) (h : Z) : Row :=
  match select_hour df h with
  | r :: _ => r
  | [] => mkRow 0 h 0 0
  end.

(** The groups on which the loop body raises: some record, and a numeric
    capacity for which [range(int(capacity) + 1)] is empty. *)
Definition group_raises (df : DataFrame) (capacity : option cell) : bool :=
  match df, capacity with
  | _ :: _, Some (Num c) => (int c + 1 <=? 0)%Z
  | _, _ => false
  end.

(** The rows the loop body appends for a group. *)
Definition group_rows (df : DataFrame) (capacity : option cell)
  : list StockRow :=
  match df, capacity with
  | _ :: _, Some (Num c) =>
      match find_optimal_initial_stock df c with
      | Ok st =>
          match best_stock_by_hour st with
          | Some sbh =>
              map (fun e => mkStockRow (first_row df (fst e)) (snd e)
                                       (best_initial_stock st)
                                       (min_truncations st)) sbh
          | None => []
          end
      | Err _ => []
      end
  | _, _ => []
  end.

(** A record whose station has a capacity that leaves nothing to scan. *)
Definition unscannable (capacity_dict : capacity_table) (r : Row) : Prop :=
  exists c, dict_get (loc_id r) capacity_dict = Some (Num c) /\
            (int c + 1 <= 0)%Z.

(** The identifying columns of an output row. *)
Definition row_day (o : StockRow) : Z := day (source_row o).
Definition row_hour (o : StockRow) : Z := hour (source_row o).
Definition row_loc (o : StockRow) : Z := loc_id (source_row o).

(** [o1] comes before [o2] in the order in which the loop visits groups and
    hours: by day, then by station, then by hour. *)
Definition row_before (o1 o2 : StockRow) : Prop :=
  (row_day o1 < row_day o2)%Z \/
  (row_day o1 = row_day o2 /\
   ((row_loc o1 < row_loc o2)%Z \/
    (row_loc o1 = row_loc o2 /\ (row_hour o1 < row_hour o2)%Z))).

(** The columns the output is finally sorted by. *)
Definition sort_key (o : StockRow) : Z * Z * Z :=
  (row_day o, row_hour o, row_loc o).

(** A small table: two days, two stations, station 9 without capacity. *)
Definition df_two_days : DataFrame :=
  [mkRow 1 0 7 2; mkRow 1 1 7 (-3); mkRow 1 0 9 1;
   mkRow 2 0 7 (-1); mkRow 2 0 8 4].

Definition caps_two_days : capacity_table :=
  [(7%Z, Num 3); (8%Z, Num 2); (9%Z, NaN)].

Definition rows_two_days : list StockRow :=
  [mkStockRow (mkRow 1 0 7 2) 1 1 (Fin 0);
   mkStockRow (mkRow 1 1 7 (-3)) 3 1 (Fin 0);
   mkStockRow (mkRow 2 0 7 (-1)) 1 1 (Fin 0);
   mkStockRow (mkRow 2 0 8 4) 0 0 (Fin 2)].

(** Lexicographic order on the sort columns. *)
Definition key_le (a b : Z * Z * Z) : Prop :=
  let '(d1, h1, l1) := a in
  let '(d2, h2, l2) := b in
  (d1 < d2)%Z \/ (d1 = d2 /\ ((h1 < h2)%Z \/ (h1 = h2 /\ (l1 <= l2)%Z))).

(** A frame is ascending by (day, hour, loc_id). *)
Definition ascending_by_key (rows : list StockRow) : Prop :=
  StronglySorted (fun a b => key_le (sort_key a) (sort_key b)) rows.

(** The identifying columns of an input record. *)
Definition record_key (r : Row) : Z * Z * Z := (day r, hour r, loc_id r).

(** ** The capacity dictionary of [load_data] *)

(** [d[k] = v] on a capacity dictionary. *)
Fixpoint table_set (k : Z) (v : cell) (d : capacity_table) : capacity_table :=
  match d with
  | [] => [(k, v)]
  | (k', v') :: r =>
      if (k' =? k)%Z then (k, v) :: r else (k', v') :: table_set k v r
  end.

(** [dict(zip(df_capacities['loc_id'], df_capacities['Total Docks']))]: the
    rows of the capacity file, as (loc_id, Total Docks) pairs, are entered
    one after the other. *)
Definition capacity_dict_of (df_capacities : list (Z * cell))
  : capacity_table :=
  fold_left (fun d kv => table_set (fst kv) (snd kv) d) df_capacities [].

(** The last row of the capacity file that lists station [k]. *)
Definition last_listed (k : Z) (df_capacities : list (Z * cell))
  : option cell :=
  hd_error (map snd (filter (fun kv => (fst kv =? k)%Z) (rev df_capacities))).

(** One day, station 7 with two hours and station 8 with one. *)
Definition df_interleaved : DataFrame :=
  [mkRow 1 0 7 1; mkRow 1 1 7 1; mkRow 1 0 8 1].

Definition rows_interleaved : list StockRow :=
  [mkStockRow (mkRow 1 0 7 1) 0 0 (Fin 0);
   mkStockRow (mkRow 1 1 7 1) 1 0 (Fin 0);
   mkStockRow (mkRow 1 0 8 1) 0 0 (Fin 0)].

(** The same rows ordered by (day, hour, loc_id). *)
Definition out_interleaved : list StockRow :=
  [mkStockRow (mkRow 1 0 7 1) 0 0 (Fin 0);
   mkStockRow (mkRow 1 0 8 1) 0 0 (Fin 0);
   mkStockRow (mkRow 1 1 7 1) 1 0 (Fin 0)].

(* ------------------------------------------------------------------ *)
(** * Comparisons *)

Lemma Qltb_lt (x y : Q) : Qltb x y = true <-> x < y.
Proof. unfold Qltb, Qlt. apply Z.ltb_lt. Qed.

Lemma Qltb_ge (x y : Q) : Qltb x y = false <-> y <= x.
Proof. unfold Qltb, Qle. apply Z.ltb_ge. Qed.

Lemma Qltb_reflect (x y : Q) : reflect (x < y) (Qltb x y).
Proof. apply iff_reflect. symmetry. apply Qltb_lt. Qed.

Ltac qcmp x y :=
  let H := fresh "Hcmp" in
  destruct (Qltb x y) eqn:H;
  [apply Qltb_lt in H | apply Qltb_ge in H].

(* ------------------------------------------------------------------ *)
(** * [unique] and [sorted] *)

Lemma existsb_eqb_In (x : Z) (l : list Z) :
  existsb (Z.eqb x) l = true <-> In x l.
Proof.
  rewrite existsb_exists. split.
  - intros (y & Hy & E). apply Z.eqb_eq in E. now subst.
  - intros H. exists x. split; [assumption | apply Z.eqb_refl].
Qed.

Lemma unique_acc_In (l seen : list Z) (x : Z) :
  In x (unique_acc seen l) <-> In x l /\ ~ In x seen.
Proof.
  revert seen. induction l as [|y l IH]; intros seen; simpl.
  - tauto.
  - destruct (existsb (Z.eqb y) seen) eqn:E.
    + apply existsb_eqb_In in E. rewrite IH. split.
      * intros [H1 H2]. tauto.
      * intros [[->|H1] H2]; [contradiction | tauto].
    + assert (Hy : ~ In y seen).
      { intros H. apply existsb_eqb_In in H. congruence. }
      simpl. rewrite IH. simpl. split.
      * intros [->|[H1 H2]]; [tauto|]. split; [tauto|]. tauto.
      * intros [[->|H1] H2]; [tauto|].
        destruct (Z.eq_dec y x) as [->|Hne]; [tauto|]. right. tauto.
Qed.

Lemma unique_acc_NoDup (l seen : list Z) : NoDup (unique_acc seen l).
Proof.
  revert seen. induction l as [|y l IH]; intros seen; simpl.
  - constructor.
  - destruct (existsb (Z.eqb y) seen); [apply IH|].
    constructor; [|apply IH].
    rewrite unique_acc_In. simpl. tauto.
Qed.

Lemma unique_In (l : list Z) (x : Z) : In x (unique l) <-> In x l.
Proof. unfold unique. rewrite unique_acc_In. simpl. tauto. Qed.

Lemma unique_NoDup (l : list Z) : NoDup (unique l).
Proof. apply unique_acc_NoDup. Qed.

Lemma insert_sorted_perm (x : Z) (l : list Z) :
  Permutation (x :: l) (insert_sorted x l).
Proof.
  induction l as [|y l IH]; simpl; [reflexivity|].
  destruct (x <=? y)%Z; [reflexivity|].
  rewrite perm_swap. now constructor.
Qed.

Lemma sorted_perm (l : list Z) : Permutation l (sorted l).
Proof.
  induction l as [|x l IH]; simpl; [constructor|].
  rewrite <- insert_sorted_perm. now constructor.
Qed.

Lemma sorted_In (l : list Z) (x : Z) : In x (sorted l) <-> In x l.
Proof.
  split; apply Permutation_in;
    [symmetry; apply sorted_perm | apply sorted_perm].
Qed.

Lemma insert_sorted_le (x : Z) (l : list Z) :
  StronglySorted Z.le l -> StronglySorted Z.le (insert_sorted x l).
Proof.
  induction 1 as [|y l Hs IH Hy]; simpl.
  - repeat constructor.
  - destruct (x <=? y)%Z eqn:E.
    + apply Z.leb_le in E. constructor.
      * now constructor.
      * constructor; [assumption|].
        eapply Forall_impl; [|exact Hy]. simpl. intros. lia.
    + apply Z.leb_gt in E. constructor; [assumption|].
      apply Forall_forall. intros z Hz.
      apply (Permutation_in _ (Permutation_sym (insert_sorted_perm x l))) in Hz.
      destruct Hz as [->|Hz]; [lia|].
      rewrite Forall_forall in Hy. now apply Hy.
Qed.

Lemma sorted_le (l : list Z) : StronglySorted Z.le (sorted l).
Proof.
  induction l; simpl; [constructor | now apply insert_sorted_le].
Qed.

Lemma sorted_NoDup (l : list Z) : NoDup l -> NoDup (sorted l).
Proof. apply Permutation_NoDup, sorted_perm. Qed.

Lemma sorted_lt_of_NoDup (l : list Z) :
  StronglySorted Z.le l -> NoDup l -> StronglySorted Z.lt l.
Proof.
  induction 1 as [|x l Hs IH Hx]; intros Hnd; [constructor|].
  inversion Hnd as [|? ? Hnin Hnd']; subst.
  constructor; [now apply IH|].
  rewrite Forall_forall in *. intros y Hy.
  specialize (Hx y Hy).
  assert (x <> y) by (intros ->; contradiction). lia.
Qed.

Lemma hours_of_In (df : DataFrame) (h : Z) :
  In h (hours_of df) <-> In h (map hour df).
Proof. unfold hours_of. now rewrite sorted_In, unique_In. Qed.

Lemma hours_of_NoDup (df : DataFrame) : NoDup (hours_of df).
Proof. apply sorted_NoDup, unique_NoDup. Qed.

Lemma hours_of_ascending (df : DataFrame) :
  StronglySorted Z.lt (hours_of df).
Proof.
  apply sorted_lt_of_NoDup; [apply sorted_le | apply hours_of_NoDup].
Qed.

(* ------------------------------------------------------------------ *)
(** * The simulator loop, hour by hour *)

Lemma select_hour_nonempty (df : DataFrame) (h : Z) :
  In h (map hour df) -> exists r rest, select_hour df h = r :: rest.
Proof.
  intros H. apply in_map_iff in H. destruct H as (r & Hr & Hin).
  assert (Hf : In r (select_hour df h)).
  { apply filter_In. split; [assumption|]. now apply Z.eqb_eq. }
  destruct (select_hour df h) as [|r0 rest]; [contradiction|]. eauto.
Qed.

Lemma dict_set_fresh (k : Z) (v : Q) (d : dict) :
  ~ In k (keys d) -> dict_set k v d = d ++ [(k, v)].
Proof.
  induction d as [|[k' v'] d IH]; simpl; intros H; [reflexivity|].
  destruct (k' =? k)%Z eqn:E.
  - apply Z.eqb_eq in E. tauto.
  - rewrite IH; tauto.
Qed.

Lemma keys_app (d1 d2 : dict) : keys (d1 ++ d2) = keys d1 ++ keys d2.
Proof. apply map_app. Qed.

(** The loop run on hours that occur in the frame never raises, appends one
    entry per hour and accumulates the penalties. *)
Lemma hours_loop_ok (df : DataFrame) (capacity : Q) (hs : list Z) :
  forall (sbh : dict) (t cur : Q),
    (forall h, In h hs -> In h (map hour df)) ->
    NoDup (keys sbh ++ hs) ->
    hours_loop df capacity hs sbh t cur =
    Ok (sbh ++ trace capacity (map (fun h => (h, first_demand df h)) hs) cur,
        total capacity (map (fun h => (h, first_demand df h)) hs) t cur).
Proof.
  induction hs as [|h hs IH]; intros sbh t cur Hin Hnd;
    cbn [hours_loop map trace total].
  - now rewrite app_nil_r.
  - destruct (select_hour_nonempty df h) as (r & rest & Hsel);
      [apply Hin; now left|].
    assert (Hfd : first_demand df h = net_demand r).
    { unfold first_demand. now rewrite Hsel. }
    rewrite Hsel, Hfd. cbn [iloc0 bind].
    assert (Hfresh : ~ In h (keys sbh)).
    { intros Hk. apply NoDup_remove_2 in Hnd. apply Hnd.
      apply in_or_app. now left. }
    assert (Hnd' : NoDup (keys (dict_set h cur sbh) ++ hs)).
    { rewrite dict_set_fresh by assumption. rewrite keys_app. simpl.
      rewrite <- app_assoc. exact Hnd. }
    assert (Hin' : forall h', In h' hs -> In h' (map hour df)).
    { intros h' Hh'. apply Hin. now right. }
    unfold bump, clamp.
    destruct (Qltb (cur + net_demand r) 0);
      [|destruct (Qltb capacity (cur + net_demand r))];
      rewrite (IH _ _ _ Hin' Hnd'), dict_set_fresh by assumption;
      rewrite <- app_assoc; reflexivity.
Qed.

(** [calculate_stock_for_initial_value] returns normally on every input. *)
Lemma calculate_ok (df : DataFrame) (initial_stock capacity : Q) :
  calculate_stock_for_initial_value df initial_stock capacity =
  Ok (trace capacity (ordered_net_demands df) initial_stock,
      total capacity (ordered_net_demands df) 0 initial_stock).
Proof.
  unfold calculate_stock_for_initial_value.
  fold (hours_of df). cbv zeta.
  rewrite (@hours_loop_ok df capacity (hours_of df) [] 0 initial_stock).
  - reflexivity.
  - intros h. apply hours_of_In.
  - apply hours_of_NoDup.
Qed.

Lemma total_cost (capacity : Q) (ds : list (Z * Q)) :
  forall t cur, total capacity ds t cur == t + cost capacity ds cur.
Proof.
  induction ds as [|[h d] ds IH]; intros t cur; simpl.
  - lra.
  - rewrite IH. unfold bump, penalty.
    destruct (Qltb (cur + d) 0); [|destruct (Qltb capacity (cur + d))]; lra.
Qed.

Lemma keys_trace (capacity : Q) (ds : list (Z * Q)) :
  forall cur, keys (trace capacity ds cur) = map fst ds.
Proof.
  induction ds as [|[h d] ds IH]; intros cur; simpl; [reflexivity|].
  now rewrite IH.
Qed.

Lemma keys_ordered_net_demands (df : DataFrame) :
  map fst (ordered_net_demands df) = hours_of df.
Proof.
  unfold ordered_net_demands. rewrite map_map. simpl. apply map_id.
Qed.

(* ------------------------------------------------------------------ *)
(** * Clamping arithmetic *)

Lemma penalty_nonneg (capacity x : Q) : 0 <= penalty capacity x.
Proof.
  unfold penalty. qcmp x 0.
  - apply Qabs_nonneg.
  - qcmp capacity x; lra.
Qed.

Lemma penalty_zero_iff (capacity x : Q) :
  penalty capacity x == 0 <-> in_range capacity x.
Proof.
  unfold penalty, in_range. qcmp x 0.
  - rewrite Qabs_neg by lra. split; intros; lra.
  - qcmp capacity x; split; intros; lra.
Qed.

Lemma clamp_in_range (capacity x : Q) :
  in_range capacity x -> clamp capacity x = x.
Proof.
  unfold clamp, in_range. intros [H0 H1].
  qcmp x 0; [lra|]. qcmp capacity x; [lra|]. reflexivity.
Qed.

Lemma clamp_range (capacity x : Q) :
  0 <= capacity -> in_range capacity (clamp capacity x).
Proof.
  unfold clamp, in_range. intros Hc.
  qcmp x 0; [lra|]. qcmp capacity x; lra.
Qed.

Lemma penalty_excess (capacity x : Q) :
  0 <= capacity -> penalty capacity x == excess capacity x.
Proof.
  intros Hc. unfold penalty, excess.
  destruct (Q.max_spec 0 (- x)) as [[H1 E1]|[H1 E1]];
    destruct (Q.max_spec 0 (x - capacity)) as [[H2 E2]|[H2 E2]];
    rewrite E1, E2; qcmp x 0; try lra; try (rewrite Qabs_neg by lra; lra);
    qcmp capacity x; lra.
Qed.

Lemma cost_nonneg (capacity : Q) (ds : list (Z * Q)) :
  forall cur, 0 <= cost capacity ds cur.
Proof.
  induction ds as [|[h d] ds IH]; intros cur; simpl; [lra|].
  pose proof (penalty_nonneg capacity (cur + d)).
  pose proof (IH (clamp capacity (cur + d))). lra.
Qed.

Lemma trace_in_range (capacity : Q) (ds : list (Z * Q)) :
  forall cur, in_range capacity cur ->
    Forall (in_range capacity) (values (trace capacity ds cur)).
Proof.
  induction ds as [|[h d] ds IH]; intros cur Hcur; simpl; constructor.
  - exact Hcur.
  - apply IH. apply clamp_range. unfold in_range in Hcur. lra.
Qed.

Lemma cost_zero_iff (capacity : Q) (ds : list (Z * Q)) :
  forall cur,
    cost capacity ds cur == 0 <-> Forall (in_range capacity) (running cur ds).
Proof.
  induction ds as [|[h d] ds IH]; intros cur; simpl.
  - split; [constructor | reflexivity].
  - pose proof (penalty_nonneg capacity (cur + d)) as Hp.
    pose proof (cost_nonneg capacity ds (clamp capacity (cur + d))) as Hc.
    split.
    + intros H.
      assert (Hp0 : penalty capacity (cur + d) == 0) by lra.
      assert (Hc0 : cost capacity ds (clamp capacity (cur + d)) == 0) by lra.
      apply penalty_zero_iff in Hp0.
      rewrite (clamp_in_range Hp0) in Hc0.
      constructor; [assumption | now apply IH].
    + intros H. inversion H as [|? ? Hr Hrest]; subst.
      rewrite (clamp_in_range Hr).
      apply penalty_zero_iff in Hr. apply IH in Hrest. lra.
Qed.

Lemma cost_recorded (df : DataFrame) (capacity : Q) (hs : list Z) :
  0 <= capacity ->
  forall cur,
    cost capacity (map (fun h => (h, first_demand df h)) hs) cur ==
    recorded_excess df capacity
      (trace capacity (map (fun h => (h, first_demand df h)) hs) cur).
Proof.
  intros Hc. unfold recorded_excess.
  induction hs as [|h hs IH]; intros cur; cbn [map cost trace sumQ fold_right].
  - reflexivity.
  - cbn [fst snd]. rewrite <- IH. now rewrite penalty_excess.
Qed.

(* ------------------------------------------------------------------ *)
(** * [int] and [range] *)

Lemma range_In (n k : Z) : In k (range n) <-> (0 <= k < n)%Z.
Proof.
  unfold range. rewrite in_map_iff. split.
  - intros (i & <- & Hi). apply in_seq in Hi. lia.
  - intros H. exists (Z.to_nat k). split; [lia|]. apply in_seq. lia.
Qed.

Lemma seq_ascending (n a : nat) :
  StronglySorted Z.lt (map Z.of_nat (seq a n)).
Proof.
  revert a. induction n as [|n IH]; intros a; simpl; constructor.
  - apply IH.
  - apply Forall_forall. intros k Hk. apply in_map_iff in Hk.
    destruct Hk as (i & <- & Hi). apply in_seq in Hi. lia.
Qed.

Lemma range_ascending (n : Z) : StronglySorted Z.lt (range n).
Proof. apply seq_ascending. Qed.

Lemma range_nonpos (n : Z) : (n <= 0)%Z -> range n = [].
Proof.
  intros H. unfold range. now replace (Z.to_nat n) with 0%nat by lia.
Qed.

Lemma range_pos (n : Z) : (0 < n)%Z -> exists rest, range n = 0%Z :: rest.
Proof.
  intros H. unfold range.
  destruct (Z.to_nat n) as [|m] eqn:E; [lia|]. simpl. eauto.
Qed.

Lemma int_nonneg (x : Q) : -1 < x -> (0 <= int x)%Z.
Proof.
  destruct x as [n d]. unfold Qlt, int. simpl. intros H.
  destruct (Z_lt_le_dec n 0) as [Hn|Hn].
  - assert (E : (n ÷ Z.pos d = 0)%Z) by (apply Z.quot_small_iff; lia).
    rewrite E. lia.
  - apply Z.quot_pos; lia.
Qed.

Lemma int_floor (x : Q) : 0 <= x -> int x = Qfloor x.
Proof.
  destruct x as [n d]. unfold Qle, int, Qfloor. simpl. intros H.
  apply Z.quot_div_nonneg; lia.
Qed.

Lemma int_le (x : Q) : 0 <= x -> inject_Z (int x) <= x.
Proof. intros H. rewrite int_floor by assumption. apply Qfloor_le. Qed.

(* ------------------------------------------------------------------ *)
(** * The scan over candidate initial stocks *)

Section Scan.

Variable df : DataFrame.
Variable capacity : Q.

Lemma scan_body_eq (k : Z) (st : scan_state) :
  scan_body df capacity k st =
  Ok (if lt_ext (trunc_of df capacity k) (min_truncations st)
      then mkScan k (Some (traj_of df capacity k))
                  (Fin (trunc_of df capacity k))
      else st).
Proof.
  unfold scan_body. rewrite calculate_ok. simpl.
  fold (trunc_of df capacity k). fold (traj_of df capacity k).
  now destruct (lt_ext (trunc_of df capacity k) (min_truncations st)).
Qed.

Lemma ascending_app_lt (l1 l2 : list Z) (x y : Z) :
  StronglySorted Z.lt (l1 ++ l2) -> In x l1 -> In y l2 -> (x < y)%Z.
Proof.
  induction l1 as [|a l1 IH]; simpl; intros Hs Hx Hy; [contradiction|].
  inversion Hs as [|? ? Hs' Ha]; subst.
  destruct Hx as [->|Hx]; [|now apply IH].
  rewrite Forall_forall in Ha. apply Ha, in_or_app. now right.
Qed.

Lemma scan_inv_step (seen : list Z) (c : Z) (st : scan_state) :
  (forall k, In k seen -> (k < c)%Z) ->
  scan_inv df capacity seen st ->
  scan_inv df capacity (seen ++ [c])
    (if lt_ext (trunc_of df capacity c) (min_truncations st)
     then mkScan c (Some (traj_of df capacity c))
                 (Fin (trunc_of df capacity c))
     else st).
Proof.
  intros Hlt [[-> ->]|(Hin & Htraj & Hmin & Hle & Hfirst)]; right.
  - simpl. repeat split; try tauto.
    + intros k [<-|[]]. apply Qle_refl.
    + intros k [<-|[]] Hk. lia.
  - rewrite Hmin. simpl.
    destruct (Qltb_reflect (trunc_of df capacity c)
                (trunc_of df capacity (best_initial_stock st)))
      as [Hc|Hc]; simpl.
    + repeat split.
      * apply in_or_app. right. now left.
      * intros k Hk. apply in_app_or in Hk. destruct Hk as [Hk|[<-|[]]].
        -- specialize (Hle k Hk). lra.
        -- apply Qle_refl.
      * intros k Hk Hkc. apply in_app_or in Hk.
        destruct Hk as [Hk|[<-|[]]]; [|lia].
        specialize (Hle k Hk). lra.
    + assert (Hc' : trunc_of df capacity (best_initial_stock st)
                    <= trunc_of df capacity c) by lra.
      repeat split; try assumption.
      * apply in_or_app. now left.
      * intros k Hk. apply in_app_or in Hk.
        destruct Hk as [Hk|[<-|[]]]; [now apply Hle | assumption].
      * intros k Hk Hkb. apply in_app_or in Hk.
        destruct Hk as [Hk|[<-|[]]]; [now apply Hfirst|].
        specialize (Hlt _ Hin). lia.
Qed.

Lemma scan_loop_inv (cs : list Z) :
  forall (seen : list Z) (st : scan_state),
    StronglySorted Z.lt (seen ++ cs) ->
    scan_inv df capacity seen st ->
    exists st', scan_loop df capacity cs st = Ok st' /\
                scan_inv df capacity (seen ++ cs) st'.
Proof.
  induction cs as [|c cs IH]; intros seen st Hs Hinv; simpl.
  - exists st. now rewrite app_nil_r.
  - rewrite scan_body_eq. simpl.
    replace (seen ++ c :: cs) with ((seen ++ [c]) ++ cs) in *
      by (now rewrite <- app_assoc).
    apply IH; [assumption|].
    apply scan_inv_step; [|assumption].
    intros k Hk. rewrite <- app_assoc in Hs.
    apply (@ascending_app_lt seen ([c] ++ cs) k c Hs Hk). now left.
Qed.

(** The scan returns normally; with at least one candidate the result is
    the first minimiser. *)
Lemma scan_spec :
  (0 <= int capacity)%Z ->
  exists b,
    find_optimal_initial_stock df capacity =
      Ok (mkScan b (Some (traj_of df capacity b))
                   (Fin (trunc_of df capacity b))) /\
    (0 <= b <= int capacity)%Z /\
    (forall k, (0 <= k <= int capacity)%Z ->
               trunc_of df capacity b <= trunc_of df capacity k) /\
    (forall k, (0 <= k < b)%Z ->
               trunc_of df capacity b < trunc_of df capacity k).
Proof.
  intros Hcap. unfold find_optimal_initial_stock. cbv zeta.
  destruct (@scan_loop_inv (range (int capacity + 1)) [] scan_init)
    as (st & Hrun & Hinv).
  - apply range_ascending.
  - left. split; reflexivity.
  - simpl in Hinv.
    destruct Hinv as [[Hnil _]|(Hin & Htraj & Hmin & Hle & Hfirst)].
    + destruct (@range_pos (int capacity + 1)%Z) as [rest E]; [lia|].
      congruence.
    + destruct st as [b sbh m]. simpl in *. subst sbh m.
      exists b. apply range_In in Hin. repeat split; try lia.
      * exact Hrun.
      * intros k Hk. apply Hle, range_In. lia.
      * intros k Hk. apply Hfirst; [apply range_In|]; lia.
Qed.

End Scan.

(* ------------------------------------------------------------------ *)
(** * The simulator: range, cost and shape of the result *)

Lemma trace_head (capacity : Q) (ds : list (Z * Q)) (cur : Q) :
  trace capacity ds cur = [] \/
  hd_error (values (trace capacity ds cur)) = Some cur.
Proof. destruct ds as [|[h d] ds]; simpl; [now left | now right]. Qed.

(** C2. For every initial stock in [[0, capacity]] and every group, the
    simulator returns, and every stock value it recorded lies in
    [[0, capacity]]; the first recorded value, if any, is the initial stock
    itself. *)
Theorem stock_by_hour_within_capacity
    (df : DataFrame) (initial_stock capacity : Q) :
  0 <= initial_stock -> initial_stock <= capacity ->
  exists sbh t,
    calculate_stock_for_initial_value df initial_stock capacity = Ok (sbh, t) /\
    Forall (in_range capacity) (values sbh) /\
    (sbh = [] \/ hd_error (values sbh) = Some initial_stock).
Proof.
  intros H0 H1. rewrite calculate_ok. do 2 eexists. split; [reflexivity|].
  split; [|apply trace_head].
  apply trace_in_range. split; assumption.
Qed.

Lemma stock_by_hour_within_capacity_witness :
  0 <= 3 /\ 3 <= 10 /\
  exists sbh t,
    calculate_stock_for_initial_value df_scenario_a 3 10 = Ok (sbh, t) /\
    Forall (in_range 10) (values sbh) /\
    (sbh = [] \/ hd_error (values sbh) = Some 3).
Proof.
  assert (H0 : 0 <= 3) by (unfold Qle; simpl; lia).
  assert (H1 : 3 <= 10) by (unfold Qle; simpl; lia).
  split; [exact H0|]. split; [exact H1|].
  exact (stock_by_hour_within_capacity df_scenario_a H0 H1).
Defined.

Lemma sorted_length (l : list Z) : length (sorted l) = length l.
Proof. symmetry. apply Permutation_length, sorted_perm. Qed.

(** C5. For every initial stock in [[0, capacity]] the returned truncation
    is non-negative; it is zero exactly when the initial stock plus the
    running cumulative demand stays inside [[0, capacity]]; and the returned
    dictionary has one entry for each hour that occurs in the group. *)
Theorem truncation_zero_iff_never_leaves
    (df : DataFrame) (initial_stock capacity : Q) :
  0 <= initial_stock -> initial_stock <= capacity ->
  exists sbh t,
    calculate_stock_for_initial_value df initial_stock capacity = Ok (sbh, t) /\
    0 <= t /\
    (t == 0 <->
     Forall (in_range capacity) (unclamped_trajectory df initial_stock)) /\
    NoDup (keys sbh) /\
    (forall h, In h (keys sbh) <-> In h (map hour df)) /\
    length sbh = length (unique (map hour df)).
Proof.
  intros H0 H1. rewrite calculate_ok. do 2 eexists. split; [reflexivity|].
  pose proof (total_cost capacity (ordered_net_demands df) 0 initial_stock)
    as Ht.
  pose proof (cost_nonneg capacity (ordered_net_demands df) initial_stock)
    as Hc.
  assert (Hk : keys (trace capacity (ordered_net_demands df) initial_stock)
               = hours_of df).
  { now rewrite keys_trace, keys_ordered_net_demands. }
  split; [lra|]. split; [|split; [|split]].
  - rewrite Ht, Qplus_0_l, cost_zero_iff. unfold unclamped_trajectory. split.
    + intros H. constructor; [split; assumption | exact H].
    + intros H. now inversion H.
  - rewrite Hk. apply hours_of_NoDup.
  - intros h. rewrite Hk. apply hours_of_In.
  - rewrite <- (length_map fst). fold (keys (trace capacity
      (ordered_net_demands df) initial_stock)). rewrite Hk.
    apply sorted_length.
Qed.

Lemma truncation_zero_iff_never_leaves_witness :
  0 <= 3 /\ 3 <= 10 /\
  exists sbh t,
    calculate_stock_for_initial_value df_scenario_a 3 10 = Ok (sbh, t) /\
    0 <= t /\
    (t == 0 <->
     Forall (in_range 10) (unclamped_trajectory df_scenario_a 3)) /\
    NoDup (keys sbh) /\
    (forall h, In h (keys sbh) <-> In h (map hour df_scenario_a)) /\
    length sbh = length (unique (map hour df_scenario_a)).
Proof.
  assert (H0 : 0 <= 3) by (unfold Qle; simpl; lia).
  assert (H1 : 3 <= 10) by (unfold Qle; simpl; lia).
  split; [exact H0|]. split; [exact H1|].
  exact (truncation_zero_iff_never_leaves df_scenario_a H0 H1).
Defined.

(* ------------------------------------------------------------------ *)
(** * The truncation total as a sum *)

Lemma trace_chain (df : DataFrame) (capacity : Q) (hs : list Z) :
  forall cur,
    clamped_chain df capacity
      (trace capacity (map (fun h => (h, first_demand df h)) hs) cur).
Proof.
  induction hs as [|h hs IH]; intros cur; [exact I|].
  cbn [map trace clamped_chain]. split; [|apply IH].
  destruct hs as [|h' hs]; [exact I | reflexivity].
Qed.


(** C3 fails as stated: starting empty with capacity 10 and demands -5, +3
    the simulator clamps to 0 after the first hour and counts 5, whereas the
    unclamped propagation visits -5 and then -2 and sums to 7. *)
Lemma truncation_not_unclamped_sum :
  exists sbh t,
    calculate_stock_for_initial_value df_underflow 0 10 = Ok (sbh, t) /\
    t == 5 /\
    spec_unclamped_truncation df_underflow 0 10 == 7 /\
    ~ t == spec_unclamped_truncation df_underflow 0 10.
Proof.
  do 2 eexists. split; [vm_compute; reflexivity|].
  split; [vm_compute; reflexivity|].
  split; [vm_compute; reflexivity|].
  intros H. vm_compute in H. discriminate H.
Qed.

(** C3, amended. For a non-negative capacity the simulator records one
    entry for each hour of the group, in ascending order of the hours; the
    first recorded stock is the initial stock and every later one is the
    clamp of the previous stock plus the previous hour's demand; and the
    returned truncation is the sum over all these hours of
    [max(0, -n) + max(0, n - capacity)] where [n] is the hour's recorded
    (clamped) start-of-hour stock plus the hour's demand. *)
Theorem truncation_is_sum_of_recorded_excess
    (df : DataFrame) (initial_stock capacity : Q) :
  0 <= capacity ->
  exists sbh t,
    calculate_stock_for_initial_value df initial_stock capacity = Ok (sbh, t) /\
    keys sbh = sorted (unique (map hour df)) /\
    (sbh = [] \/ hd_error (values sbh) = Some initial_stock) /\
    clamped_chain df capacity sbh /\
    t == recorded_excess df capacity sbh.
Proof.
  intros Hc. rewrite calculate_ok. do 2 eexists. split; [reflexivity|].
  split; [now rewrite keys_trace, keys_ordered_net_demands|].
  split; [apply trace_head|].
  split; [apply trace_chain|].
  rewrite total_cost, Qplus_0_l. unfold ordered_net_demands.
  now apply cost_recorded.
Qed.

Lemma truncation_is_sum_of_recorded_excess_witness :
  0 <= 10 /\
  exists sbh t,
    calculate_stock_for_initial_value df_underflow 0 10 = Ok (sbh, t) /\
    keys sbh = sorted (unique (map hour df_underflow)) /\
    (sbh = [] \/ hd_error (values sbh) = Some 0) /\
    clamped_chain df_underflow 10 sbh /\
    t == recorded_excess df_underflow 10 sbh.
Proof.
  assert (Hc : 0 <= 10) by (unfold Qle; simpl; lia).
  split; [exact Hc|].
  exact (truncation_is_sum_of_recorded_excess df_underflow 0 Hc).
Defined.

(** With a negative capacity the [elif] hides the second term of the
    formula: from 0 with capacity -5 and demand -2 the script counts 2, the
    two-sided formula 5. *)
Example negative_capacity_one_sided :
  exists sbh t,
    calculate_stock_for_initial_value [mkRow 1 0 7 (-2)] 0 (-5) = Ok (sbh, t) /\
    t == 2 /\ recorded_excess [mkRow 1 0 7 (-2)] (-5) sbh == 5.
Proof.
  do 2 eexists. split; [vm_compute; reflexivity|].
  split; vm_compute; reflexivity.
Qed.

(* ------------------------------------------------------------------ *)
(** * Empty groups *)

Lemma stations_loop_skips_empty (df_day : DataFrame) (caps : capacity_table)
    (loc : Z) (rest : list Z) (results : list StockRow) :
  select_loc df_day loc = [] ->
  stations_loop df_day caps (loc :: rest) results =
  stations_loop df_day caps rest results.
Proof. intros H. simpl. rewrite H. reflexivity. Qed.

(** C7. On a group without rows the simulator returns the empty dictionary
    and truncation 0 for every initial stock and capacity, and the grouping
    loop leaves [results] untouched for such a group whatever the capacity
    entry is: no row is produced and nothing is raised. *)
Theorem empty_group_is_noop :
  (forall initial_stock capacity,
      calculate_stock_for_initial_value [] initial_stock capacity
      = Ok ([], 0)) /\
  (forall capacity results, group_body [] capacity results = Ok results).
Proof. split; reflexivity. Qed.

(* ------------------------------------------------------------------ *)
(** * The optimiser: first minimiser of the scan *)

Lemma trunc_of_nonneg (df : DataFrame) (capacity : Q) (k : Z) :
  0 <= trunc_of df capacity k.
Proof.
  unfold trunc_of. rewrite total_cost.
  pose proof (cost_nonneg capacity (ordered_net_demands df) (inject_Z k)).
  lra.
Qed.

(** C1. For a non-negative capacity the scan returns a candidate [b] of
    [0 .. int(capacity)] (which is [floor(capacity)]) together with the
    simulator's own dictionary and truncation for [b]; that truncation is at
    most the truncation of every candidate of the range and strictly below
    the truncation of every smaller candidate, so [b] is the smallest
    minimiser. *)
Theorem find_optimal_initial_stock_first_minimiser
    (df : DataFrame) (capacity : Q) :
  0 <= capacity ->
  exists b sbh m,
    find_optimal_initial_stock df capacity
      = Ok (mkScan b (Some sbh) (Fin m)) /\
    int capacity = Qfloor capacity /\
    (0 <= b <= int capacity)%Z /\
    calculate_stock_for_initial_value df (inject_Z b) capacity
      = Ok (sbh, m) /\
    (forall k, (0 <= k <= int capacity)%Z ->
       exists sbh_k t_k,
         calculate_stock_for_initial_value df (inject_Z k) capacity
           = Ok (sbh_k, t_k) /\
         m <= t_k /\
         ((k < b)%Z -> m < t_k)).
Proof.
  intros Hc.
  assert (Hint : (0 <= int capacity)%Z) by (apply int_nonneg; lra).
  destruct (scan_spec df capacity Hint) as (b & Hrun & Hb & Hle & Hfirst).
  exists b, (traj_of df capacity b), (trunc_of df capacity b).
  split; [exact Hrun|]. split; [now apply int_floor|].
  split; [exact Hb|]. split; [apply calculate_ok|].
  intros k Hk. rewrite calculate_ok. do 2 eexists.
  split; [reflexivity|]. split.
  - now apply Hle.
  - intros Hkb. apply Hfirst. lia.
Qed.

Lemma find_optimal_initial_stock_first_minimiser_witness :
  0 <= 10 /\
  exists b sbh m,
    find_optimal_initial_stock df_underflow 10
      = Ok (mkScan b (Some sbh) (Fin m)) /\
    int 10 = Qfloor 10 /\
    (0 <= b <= int 10)%Z /\
    calculate_stock_for_initial_value df_underflow (inject_Z b) 10
      = Ok (sbh, m) /\
    (forall k, (0 <= k <= int 10)%Z ->
       exists sbh_k t_k,
         calculate_stock_for_initial_value df_underflow (inject_Z k) 10
           = Ok (sbh_k, t_k) /\
         m <= t_k /\
         ((k < b)%Z -> m < t_k)).
Proof.
  assert (Hc : 0 <= 10) by (unfold Qle; simpl; lia).
  split; [exact Hc|].
  exact (find_optimal_initial_stock_first_minimiser df_underflow Hc).
Defined.

(** On the sample the scan settles on 5 bikes: the first stock from which
    the five departures of hour 0 can be served. *)
Example scan_underflow :
  find_optimal_initial_stock df_underflow 10
  = Ok (mkScan 5 (Some [(0%Z, 5); (1%Z, 0)]) (Fin 0)).
Proof. vm_compute. reflexivity. Qed.

(* ------------------------------------------------------------------ *)
(** * The end points of the range *)

Lemma penalty_compat (capacity x y : Q) :
  x == y -> penalty capacity x == penalty capacity y.
Proof.
  intros E. unfold penalty.
  qcmp x 0; qcmp y 0; try lra.
  - rewrite !Qabs_neg by lra. lra.
  - qcmp capacity x; qcmp capacity y; lra.
Qed.

Lemma clamp_compat (capacity x y : Q) :
  x == y -> clamp capacity x == clamp capacity y.
Proof.
  intros E. unfold clamp.
  qcmp x 0; qcmp y 0; try lra.
  qcmp capacity x; qcmp capacity y; lra.
Qed.

Lemma cost_compat (capacity : Q) (ds : list (Z * Q)) :
  forall x y, x == y -> cost capacity ds x == cost capacity ds y.
Proof.
  induction ds as [|[h d] ds IH]; intros x y E; simpl; [reflexivity|].
  assert (E' : x + d == y + d) by lra.
  rewrite (penalty_compat capacity E').
  rewrite (IH _ _ (clamp_compat capacity E')). reflexivity.
Qed.

(** C4 fails as stated: with capacity 1/2 the only candidate is 0, which
    costs 1/2 on the sample, while starting from the capacity itself costs
    nothing. *)
Lemma min_truncation_above_capacity_start :
  exists st sbh t,
    find_optimal_initial_stock df_half (1 # 2) = Ok st /\
    min_truncations st = Fin (1 # 2) /\
    calculate_stock_for_initial_value df_half (1 # 2) (1 # 2) = Ok (sbh, t) /\
    t == 0 /\
    ~ ext_le (min_truncations st) t.
Proof.
  do 3 eexists. split; [vm_compute; reflexivity|].
  split; [reflexivity|]. split; [vm_compute; reflexivity|].
  split; [vm_compute; reflexivity|].
  simpl. intros H. vm_compute in H. apply H. reflexivity.
Qed.

(** C4, amended. For a non-negative capacity the returned minimum is at
    most the truncation for initial stock 0 and at most the truncation for
    initial stock [int(capacity)], the last candidate of the scan; when the
    capacity is an integer this last candidate is the capacity itself. *)
Theorem min_truncation_le_end_points (df : DataFrame) (capacity : Q) :
  0 <= capacity ->
  exists st m sbh0 t0 sbhc tc sbhq tq,
    find_optimal_initial_stock df capacity = Ok st /\
    min_truncations st = Fin m /\
    calculate_stock_for_initial_value df 0 capacity = Ok (sbh0, t0) /\
    m <= t0 /\
    calculate_stock_for_initial_value df (inject_Z (int capacity)) capacity
      = Ok (sbhc, tc) /\
    m <= tc /\
    calculate_stock_for_initial_value df capacity capacity = Ok (sbhq, tq) /\
    (inject_Z (int capacity) == capacity -> m <= tq).
Proof.
  intros Hc.
  assert (Hint : (0 <= int capacity)%Z) by (apply int_nonneg; lra).
  destruct (scan_spec df capacity Hint) as (b & Hrun & Hb & Hle & Hfirst).
  rewrite !calculate_ok. do 8 eexists.
  split; [exact Hrun|]. split; [reflexivity|].
  split; [reflexivity|]. split; [apply (Hle 0%Z); lia|].
  split; [reflexivity|]. split; [apply Hle; lia|].
  split; [reflexivity|]. intros E.
  assert (Hlast := Hle (int capacity)). unfold trunc_of in Hlast at 2.
  rewrite total_cost in Hlast.
  rewrite (cost_compat capacity (ordered_net_demands df) E) in Hlast.
  rewrite total_cost. apply Hlast. lia.
Qed.

Lemma min_truncation_le_end_points_witness :
  0 <= 1 # 2 /\
  exists st m sbh0 t0 sbhc tc sbhq tq,
    find_optimal_initial_stock df_half (1 # 2) = Ok st /\
    min_truncations st = Fin m /\
    calculate_stock_for_initial_value df_half 0 (1 # 2) = Ok (sbh0, t0) /\
    m <= t0 /\
    calculate_stock_for_initial_value df_half (inject_Z (int (1 # 2))) (1 # 2)
      = Ok (sbhc, tc) /\
    m <= tc /\
    calculate_stock_for_initial_value df_half (1 # 2) (1 # 2)
      = Ok (sbhq, tq) /\
    (inject_Z (int (1 # 2)) == 1 # 2 -> m <= tq).
Proof.
  assert (Hc : 0 <= 1 # 2) by (unfold Qle; simpl; lia).
  split; [exact Hc|].
  exact (min_truncation_le_end_points df_half Hc).
Defined.

(* ------------------------------------------------------------------ *)
(** * Groups that never clamp from an empty station *)

Lemma hours_of_nonempty (df : DataFrame) : df <> [] -> hours_of df <> [].
Proof.
  destruct df as [|r rest]; [congruence|]. intros _ E.
  assert (H : In (hour r) (hours_of (r :: rest))).
  { apply hours_of_In. now left. }
  rewrite E in H. contradiction.
Qed.

(** A non-empty group that costs nothing from initial stock 0 has a
    non-negative capacity. *)
Lemma clamp_free_capacity_nonneg (df : DataFrame) (capacity : Q)
    (sbh : dict) (t : Q) :
  df <> [] ->
  calculate_stock_for_initial_value df 0 capacity = Ok (sbh, t) ->
  t == 0 ->
  0 <= capacity.
Proof.
  intros Hne Hcalc Ht. rewrite calculate_ok in Hcalc.
  injection Hcalc as _ <-.
  rewrite total_cost, Qplus_0_l in Ht. apply cost_zero_iff in Ht.
  apply hours_of_nonempty in Hne. unfold ordered_net_demands in Ht.
  destruct (hours_of df) as [|h hs]; [congruence|].
  simpl in Ht. inversion Ht as [|? ? [H0 H1] _]; subst. lra.
Qed.

(** No truncation is counted exactly when no hour takes a clamping branch:
    for every recorded entry the hour's [new_stock] is neither below 0 nor
    above the capacity. *)
Lemma zero_truncation_iff_no_clamp (df : DataFrame)
    (initial_stock capacity : Q) (sbh : dict) (t : Q) :
  calculate_stock_for_initial_value df initial_stock capacity = Ok (sbh, t) ->
  t == 0 <->
  Forall (fun e => in_range capacity (snd e + first_demand df (fst e))) sbh.
Proof.
  intros Hcalc. rewrite calculate_ok in Hcalc. injection Hcalc as <- <-.
  rewrite total_cost, Qplus_0_l. unfold ordered_net_demands.
  generalize (hours_of df) initial_stock. intros hs.
  induction hs as [|h hs IH]; intros cur; cbn [map cost trace].
  - split; [constructor | reflexivity].
  - pose proof (penalty_nonneg capacity (cur + first_demand df h)) as Hp.
    pose proof (cost_nonneg capacity
                  (map (fun h => (h, first_demand df h)) hs)
                  (clamp capacity (cur + first_demand df h))) as Hc.
    split.
    + intros H. constructor.
      * cbn [fst snd]. apply penalty_zero_iff. lra.
      * apply IH. lra.
    + intros H. inversion H as [|? ? Hr Hrest]; subst. cbn [fst snd] in Hr.
      apply penalty_zero_iff in Hr. apply IH in Hrest. lra.
Qed.

(** Outside the optimiser's contract (an empty group together with a
    capacity of at most -1) nothing is scanned and the scan returns its
    initial values, [float('inf')] included. *)
Example balanced_group_without_candidates :
  sumQ (map snd (ordered_net_demands [])) == 0 /\
  calculate_stock_for_initial_value [] 0 (-1) = Ok ([], 0) /\
  find_optimal_initial_stock [] (-1) = Ok (mkScan 0 None PInf) /\
  ~ (exists sbh m,
        find_optimal_initial_stock [] (-1) = Ok (mkScan 0 sbh (Fin m))).
Proof.
  split; [reflexivity|]. split; [reflexivity|]. split; [reflexivity|].
  intros (sbh & m & H). vm_compute in H. discriminate H.
Qed.

(** C6. Let the group be non-empty (the demand sequence of the optimiser's
    contract), or the capacity be above -1 (every non-negative capacity is).
    If the demands sum to 0 and the simulation from initial stock 0 counts
    no truncation, that is, no hour takes a clamping branch, then the scan
    returns initial stock 0 with that simulation's dictionary and a minimum
    of 0. *)
Theorem balanced_group_starts_empty
    (df : DataFrame) (capacity : Q) (sbh : dict) (t : Q) :
  df <> [] \/ -1 < capacity ->
  sumQ (map snd (ordered_net_demands df)) == 0 ->
  calculate_stock_for_initial_value df 0 capacity = Ok (sbh, t) ->
  t == 0 ->
  exists m,
    find_optimal_initial_stock df capacity = Ok (mkScan 0 (Some sbh) (Fin m)) /\
    m == 0.
Proof.
  intros Hdom _ Hcalc Ht. exists t. split; [|exact Ht].
  assert (Hc : -1 < capacity).
  { destruct Hdom as [Hne|Hc]; [|exact Hc].
    pose proof (@clamp_free_capacity_nonneg df capacity sbh t Hne Hcalc Ht).
    lra. }
  rewrite calculate_ok in Hcalc. injection Hcalc as <- <-.
  destruct (scan_spec df capacity (int_nonneg Hc))
    as (b & Hrun & Hb & Hle & Hfirst).
  assert (Hb0 : b = 0%Z).
  { destruct (Z.eq_dec b 0) as [E|Hne]; [exact E|].
    assert (Hlt := Hfirst 0%Z ltac:(lia)).
    pose proof (trunc_of_nonneg df capacity b) as Hnn.
    unfold trunc_of in Hlt at 2. change (inject_Z 0) with 0 in Hlt. lra. }
  subst b. exact Hrun.
Qed.

Lemma balanced_group_starts_empty_witness :
  (df_balanced <> [] \/ -1 < 10) /\
  sumQ (map snd (ordered_net_demands df_balanced)) == 0 /\
  calculate_stock_for_initial_value df_balanced 0 10
    = Ok ([(0%Z, 0); (1%Z, 2)], 0) /\
  0 == 0 /\
  exists m,
    find_optimal_initial_stock df_balanced 10
      = Ok (mkScan 0 (Some [(0%Z, 0); (1%Z, 2)]) (Fin m)) /\
    m == 0.
Proof.
  assert (Hd : df_balanced <> [] \/ -1 < 10) by (left; discriminate).
  assert (Hs : sumQ (map snd (ordered_net_demands df_balanced)) == 0)
    by (vm_compute; reflexivity).
  assert (Hr : calculate_stock_for_initial_value df_balanced 0 10
               = Ok ([(0%Z, 0); (1%Z, 2)], 0))
    by (vm_compute; reflexivity).
  assert (Ht : 0 == 0) by reflexivity.
  split; [exact Hd|]. split; [exact Hs|]. split; [exact Hr|].
  split; [exact Ht|].
  exact (balanced_group_starts_empty Hd Hs Hr Ht).
Defined.

(* ------------------------------------------------------------------ *)
(** * Negative capacities *)

(** C9. For a capacity below 0 with [int(capacity) + 1 <= 0] the scan tries
    no candidate and returns its initial values: initial stock 0, no
    dictionary, [float('inf')].  For a non-empty group the grouping loop then
    calls [.items()] on that missing dictionary and raises; nothing rejects
    the capacity before. *)
Theorem negative_capacity_scans_nothing
    (df : DataFrame) (capacity : Q)
    (r : Row) (rest : DataFrame) (results : list StockRow) :
  capacity < 0 ->
  (int capacity + 1 <= 0)%Z ->
  find_optimal_initial_stock df capacity = Ok (mkScan 0 None PInf) /\
  group_body (r :: rest) (Some (Num capacity)) results = Err AttributeError.
Proof.
  intros _ Hint.
  assert (E : forall d, find_optimal_initial_stock d capacity
                        = Ok (mkScan 0 None PInf)).
  { intros d. unfold find_optimal_initial_stock. cbv zeta.
    now rewrite range_nonpos. }
  split; [apply E|].
  unfold group_body. cbn [length Nat.eqb]. now rewrite E.
Qed.

Lemma negative_capacity_scans_nothing_witness :
  -3 < 0 /\
  (int (-3) + 1 <= 0)%Z /\
  find_optimal_initial_stock df_scenario_a (-3) = Ok (mkScan 0 None PInf) /\
  group_body (mkRow 1 0 7 5 :: []) (Some (Num (-3))) [] = Err AttributeError.
Proof.
  assert (Hc : -3 < 0) by (unfold Qlt; simpl; lia).
  assert (Hi : (int (-3) + 1 <= 0)%Z) by (vm_compute; discriminate).
  split; [exact Hc|]. split; [exact Hi|].
  exact (negative_capacity_scans_nothing df_scenario_a
           (mkRow 1 0 7 5) [] [] Hc Hi).
Defined.

(** The error surfaces from [create_stock_csv] itself. *)
Example create_stock_csv_negative_capacity :
  create_stock_csv df_scenario_a [(7%Z, Num (-3))] = Err AttributeError.
Proof. vm_compute. reflexivity. Qed.

(* ------------------------------------------------------------------ *)
(** * The scan as a transition system *)

Lemma scan_step_deterministic (df : DataFrame) (capacity : Q)
    (cfg cfg1 cfg2 : config) :
  scan_step df capacity cfg cfg1 ->
  scan_step df capacity cfg cfg2 ->
  cfg1 = cfg2.
Proof.
  intros H1 H2.
  inversion H1 as [c rest st sbh t Hc Hlt|c rest st sbh t Hc Hlt]; subst;
    inversion H2
      as [c' rest' st' sbh' t' Hc' Hlt'|c' rest' st' sbh' t' Hc' Hlt'];
    subst; rewrite Hc in Hc'; injection Hc' as <- <-;
    solve [reflexivity | congruence].
Qed.

Lemma scan_run_deterministic (df : DataFrame) (capacity : Q)
    (cfg : config) (r1 r2 : scan_state) :
  scan_run df capacity cfg r1 ->
  scan_run df capacity cfg r2 ->
  r1 = r2.
Proof.
  intros H1. revert r2.
  induction H1 as [st|cfg cfg' res Hstep Hrun IH]; intros r2 H2.
  - inversion H2 as [|? ? ? Hstep' _]; subst; [reflexivity|].
    inversion Hstep'.
  - inversion H2 as [|? cfg'' ? Hstep' Hrun']; subst.
    + inversion Hstep.
    + apply IH.
      now rewrite (scan_step_deterministic Hstep Hstep').
Qed.

(** The function computes the runs of the transition system. *)
Lemma scan_loop_run (df : DataFrame) (capacity : Q) (cs : list Z) :
  forall st res,
    scan_loop df capacity cs st = Ok res ->
    scan_run df capacity (cs, st) res.
Proof.
  induction cs as [|c cs IH]; intros st res H; simpl in H.
  - injection H as <-. constructor.
  - unfold scan_body in H.
    destruct (calculate_stock_for_initial_value df (inject_Z c) capacity)
      as [[sbh t]|e] eqn:Hc; simpl in H; [|discriminate].
    destruct (lt_ext t (min_truncations st)) eqn:Hlt; simpl in H.
    + eapply run_step; [eapply step_improve; eassumption|]. now apply IH.
    + eapply run_step; [eapply step_keep; eassumption|]. now apply IH.
Qed.

Lemma find_optimal_initial_stock_returns (df : DataFrame) (capacity : Q)
    (res : scan_state) :
  find_optimal_initial_stock df capacity = Ok res ->
  returns df capacity res.
Proof. apply scan_loop_run. Qed.

Lemma find_optimal_initial_stock_total (df : DataFrame) (capacity : Q) :
  exists res, find_optimal_initial_stock df capacity = Ok res.
Proof.
  unfold find_optimal_initial_stock. cbv zeta.
  generalize (range (int capacity + 1)) scan_init.
  intros cs. induction cs as [|c cs IH]; intros st; simpl.
  - eauto.
  - rewrite scan_body_eq. simpl. apply IH.
Qed.

(** C8. Two runs of the scan on the same group and capacity return the
    same triple (initial stock, dictionary, minimum), and that triple is the
    value of [find_optimal_initial_stock]. *)
Theorem find_optimal_initial_stock_deterministic
    (df : DataFrame) (capacity : Q) (r1 r2 : scan_state) :
  returns df capacity r1 ->
  returns df capacity r2 ->
  r1 = r2 /\ find_optimal_initial_stock df capacity = Ok r1.
Proof.
  intros H1 H2. split.
  - exact (scan_run_deterministic H1 H2).
  - destruct (find_optimal_initial_stock_total df capacity) as [res Hres].
    rewrite Hres. f_equal.
    apply find_optimal_initial_stock_returns in Hres.
    exact (scan_run_deterministic Hres H1).
Qed.

Lemma find_optimal_initial_stock_deterministic_witness :
  returns df_underflow 10 res_underflow /\
  returns df_underflow 10 res_underflow /\
  res_underflow = res_underflow /\
  find_optimal_initial_stock df_underflow 10 = Ok res_underflow.
Proof.
  assert (H : returns df_underflow 10 res_underflow).
  { apply find_optimal_initial_stock_returns. vm_compute. reflexivity. }
  split; [exact H|]. split; [exact H|].
  exact (find_optimal_initial_stock_deterministic H H).
Defined.

(* ------------------------------------------------------------------ *)
(** * Several records for one hour *)







(** Three records, hour 1 first and hour 0 twice: two entries, hour 0
    before hour 1, and the demand 100 of the second record of hour 0 is
    never read. *)
Example duplicates_sample :
  first_rows df_duplicates = [mkRow 1 1 7 4; mkRow 1 0 7 2] /\
  calculate_stock_for_initial_value df_duplicates 3 10
  = Ok ([(0%Z, 3); (1%Z, 5)], 0).
Proof. split; vm_compute; reflexivity. Qed.

(** A day on which one of the stations has no record: its group is empty
    and the other group is processed as usual. *)
Example create_stock_csv_empty_group :
  create_stock_csv [mkRow 1 0 7 2; mkRow 2 0 8 1] [(7%Z, Num 3); (8%Z, Num 3)]
  = Ok [mkStockRow (mkRow 1 0 7 2) 0 0 (Fin 0);
        mkStockRow (mkRow 2 0 8 1) 0 0 (Fin 0)].
Proof. vm_compute. reflexivity. Qed.

(* ------------------------------------------------------------------ *)
(** * Further properties of the simulator *)

Ltac qcases :=
  repeat match goal with
         | |- context [Qltb ?a ?b] => qcmp a b
         end.





Lemma penalty_le_abs (capacity cur d : Q) :
  in_range capacity cur -> penalty capacity (cur + d) <= Qabs d.
Proof.
  intros [H0 H1]. pose proof (Qle_Qabs d) as Hd.
  pose proof (Qle_Qabs (- d)) as Hd'. rewrite Qabs_opp in Hd'.
  unfold penalty. qcases; try lra.
  rewrite Qabs_neg by lra. lra.
Qed.

Lemma cost_le_abs (capacity : Q) (ds : list (Z * Q)) :
  forall cur, in_range capacity cur ->
    cost capacity ds cur <= sumQ (map (fun e => Qabs (snd e)) ds).
Proof.
  induction ds as [|[h d] ds IH]; intros cur Hcur; simpl; [lra|].
  pose proof (penalty_le_abs d Hcur) as Hp.
  assert (Hnext : in_range capacity (clamp capacity (cur + d))).
  { apply clamp_range. destruct Hcur. lra. }
  specialize (IH _ Hnext). lra.
Qed.



Lemma trace_unclamped (capacity : Q) (ds : list (Z * Q)) :
  forall cur,
    cost capacity ds cur == 0 ->
    values (trace capacity ds cur)
    = firstn (length ds) (cur :: running cur ds).
Proof.
  induction ds as [|[h d] ds IH]; intros cur H; [reflexivity|].
  cbn [trace values map snd length firstn running]. f_equal.
  simpl in H.
  pose proof (penalty_nonneg capacity (cur + d)) as Hp.
  pose proof (cost_nonneg capacity ds (clamp capacity (cur + d))) as Hc.
  assert (Hr : in_range capacity (cur + d)) by (apply penalty_zero_iff; lra).
  rewrite (clamp_in_range Hr) in *.
  apply IH. lra.
Qed.

(** X3. When no truncation is counted, the stock recorded for each hour is the
    initial stock plus the demands of the hours before it. *)
Theorem untruncated_stock_is_cumulative
    (df : DataFrame) (initial_stock capacity : Q) (sbh : dict) (t : Q) :
  calculate_stock_for_initial_value df initial_stock capacity = Ok (sbh, t) ->
  t == 0 ->
  values sbh = firstn (length sbh) (unclamped_trajectory df initial_stock).
Proof.
  intros Hcalc Ht. rewrite calculate_ok in Hcalc. injection Hcalc as <- <-.
  rewrite total_cost, Qplus_0_l in Ht.
  rewrite (trace_unclamped _ _ _ Ht). unfold unclamped_trajectory.
  f_equal.
  rewrite <- (length_map fst
                (trace capacity (ordered_net_demands df) initial_stock)).
  change (map fst (trace capacity (ordered_net_demands df) initial_stock))
    with (keys (trace capacity (ordered_net_demands df) initial_stock)).
  now rewrite keys_trace, length_map.
Qed.

Lemma untruncated_stock_is_cumulative_witness :
  calculate_stock_for_initial_value df_scenario_a 0 10
    = Ok ([(0%Z, 0); (1%Z, 5); (2%Z, 2); (3%Z, 10)], 0) /\
  0 == 0 /\
  values [(0%Z, 0); (1%Z, 5); (2%Z, 2); (3%Z, 10)]
  = firstn 4 (unclamped_trajectory df_scenario_a 0).
Proof.
  assert (Hr : calculate_stock_for_initial_value df_scenario_a 0 10
               = Ok ([(0%Z, 0); (1%Z, 5); (2%Z, 2); (3%Z, 10)], 0))
    by (vm_compute; reflexivity).
  assert (Ht : 0 == 0) by reflexivity.
  split; [exact Hr|]. split; [exact Ht|].
  exact (untruncated_stock_is_cumulative df_scenario_a 0 10 Hr Ht).
Defined.

(* ------------------------------------------------------------------ *)
(** * The order of the rows of a group *)

Lemma filter_permutation (A : Type) (f : A -> bool) (l l' : list A) :
  Permutation l l' -> Permutation (filter f l) (filter f l').
Proof.
  induction 1 as [|x l l' _ IH|x y l|l l' l'' _ IH1 _ IH2]; simpl.
  - constructor.
  - destruct (f x); [now constructor | assumption].
  - destruct (f x), (f y); try reflexivity. apply perm_swap.
  - now transitivity (filter f l').
Qed.

Lemma ascending_same_elements (l1 : list Z) :
  forall l2,
    StronglySorted Z.lt l1 -> StronglySorted Z.lt l2 ->
    (forall x, In x l1 <-> In x l2) ->
    l1 = l2.
Proof.
  induction l1 as [|a l1 IH]; intros l2 H1 H2 Hin.
  - destruct l2 as [|b l2]; [reflexivity|].
    exfalso. apply (proj2 (Hin b)). now left.
  - destruct l2 as [|b l2].
    + exfalso. apply (proj1 (Hin a)). now left.
    + inversion H1 as [|? ? H1' Ha]; subst.
      inversion H2 as [|? ? H2' Hb]; subst.
      rewrite Forall_forall in Ha, Hb.
      assert (Hab : a = b).
      { destruct (proj1 (Hin a) (or_introl eq_refl)) as [E|Hin2];
          [now symmetry|].
        destruct (proj2 (Hin b) (or_introl eq_refl)) as [E|Hin1];
          [exact E|].
        specialize (Hb _ Hin2). specialize (Ha _ Hin1). lia. }
      subst b. f_equal. apply IH; [assumption | assumption |].
      intros x. split; intros Hx.
      * destruct (proj1 (Hin x) (or_intror Hx)) as [E|Hx2]; [|exact Hx2].
        subst x. specialize (Ha _ Hx). lia.
      * destruct (proj2 (Hin x) (or_intror Hx)) as [E|Hx1]; [|exact Hx1].
        subst x. specialize (Hb _ Hx). lia.
Qed.

Lemma hours_of_permutation (df df' : DataFrame) :
  Permutation df df' -> hours_of df = hours_of df'.
Proof.
  intros Hp. apply ascending_same_elements; try apply hours_of_ascending.
  intros h. rewrite !hours_of_In. split; apply Permutation_in.
  - now apply Permutation_map.
  - apply Permutation_map. now symmetry.
Qed.

Lemma select_hour_at_most_one (df : DataFrame) (h : Z) :
  NoDup (map hour df) -> (length (select_hour df h) <= 1)%nat.
Proof.
  unfold select_hour. induction df as [|r df IH]; simpl; intros Hnd; [lia|].
  inversion Hnd as [|? ? Hnin Hnd']; subst.
  destruct (hour r =? h)%Z eqn:E; [|now apply IH].
  apply Z.eqb_eq in E. simpl.
  destruct (filter (fun r0 => (hour r0 =? h)%Z) df) as [|r' rest] eqn:Ef;
    [simpl; lia|].
  exfalso. apply Hnin.
  assert (Hr' : In r' (filter (fun r0 => (hour r0 =? h)%Z) df))
    by (rewrite Ef; now left).
  apply filter_In in Hr'. destruct Hr' as [Hin Hh].
  apply Z.eqb_eq in Hh. rewrite E, <- Hh. now apply in_map.
Qed.

Lemma select_hour_permutation (df df' : DataFrame) (h : Z) :
  NoDup (map hour df) -> Permutation df df' ->
  select_hour df h = select_hour df' h.
Proof.
  intros Hnd Hp.
  pose proof (@select_hour_at_most_one df h Hnd) as Hlen.
  pose proof (@filter_permutation _ (fun r => (hour r =? h)%Z) _ _ Hp) as Hf.
  fold (select_hour df h) in Hf. fold (select_hour df' h) in Hf.
  destruct (select_hour df h) as [|r [|r2 rest]]; simpl in Hlen; [| |lia].
  - apply Permutation_nil in Hf. now rewrite Hf.
  - apply Permutation_length_1_inv in Hf. now rewrite Hf.
Qed.

Lemma ordered_net_demands_permutation (df df' : DataFrame) :
  NoDup (map hour df) -> Permutation df df' ->
  ordered_net_demands df = ordered_net_demands df'.
Proof.
  intros Hnd Hp. unfold ordered_net_demands.
  rewrite (@hours_of_permutation df df' Hp). apply map_ext. intros h.
  unfold first_demand. now rewrite (@select_hour_permutation df df' h Hnd Hp).
Qed.

Lemma scan_loop_ext (df df' : DataFrame) (capacity : Q) (cs : list Z) :
  (forall i, calculate_stock_for_initial_value df i capacity
             = calculate_stock_for_initial_value df' i capacity) ->
  forall st, scan_loop df capacity cs st = scan_loop df' capacity cs st.
Proof.
  intros Hext. induction cs as [|c cs IH]; intros st; simpl; [reflexivity|].
  unfold scan_body. rewrite Hext.
  destruct (calculate_stock_for_initial_value df' (inject_Z c) capacity)
    as [[sbh t]|e]; simpl; [|reflexivity].
  destruct (lt_ext t (min_truncations st)); simpl; apply IH.
Qed.

Lemma calculate_permutation (df df' : DataFrame) (initial_stock capacity : Q) :
  NoDup (map hour df) -> Permutation df df' ->
  calculate_stock_for_initial_value df initial_stock capacity
  = calculate_stock_for_initial_value df' initial_stock capacity.
Proof.
  intros Hnd Hp. rewrite !calculate_ok.
  now rewrite (@ordered_net_demands_permutation df df' Hnd Hp).
Qed.

Lemma find_optimal_permutation (df df' : DataFrame) (capacity : Q) :
  NoDup (map hour df) -> Permutation df df' ->
  find_optimal_initial_stock df capacity
  = find_optimal_initial_stock df' capacity.
Proof.
  intros Hnd Hp. unfold find_optimal_initial_stock.
  apply scan_loop_ext. intros i. now apply calculate_permutation.
Qed.

(** X4. When every hour of the group occurs once, the order in which the rows
    are listed changes neither the simulator's result nor the optimiser's. *)
Theorem row_order_irrelevant
    (df df' : DataFrame) (initial_stock capacity : Q) :
  NoDup (map hour df) -> Permutation df df' ->
  calculate_stock_for_initial_value df initial_stock capacity
  = calculate_stock_for_initial_value df' initial_stock capacity /\
  find_optimal_initial_stock df capacity
  = find_optimal_initial_stock df' capacity.
Proof.
  intros Hnd Hp. split.
  - now apply calculate_permutation.
  - now apply find_optimal_permutation.
Qed.

Lemma row_order_irrelevant_witness :
  NoDup (map hour df_underflow) /\
  Permutation df_underflow (rev df_underflow) /\
  calculate_stock_for_initial_value df_underflow 3 10
  = calculate_stock_for_initial_value (rev df_underflow) 3 10 /\
  find_optimal_initial_stock df_underflow 10
  = find_optimal_initial_stock (rev df_underflow) 10.
Proof.
  assert (Hnd : NoDup (map hour df_underflow)).
  { simpl. repeat constructor; simpl; intuition discriminate. }
  assert (Hp : Permutation df_underflow (rev df_underflow))
    by apply Permutation_rev.
  split; [exact Hnd|]. split; [exact Hp|].
  exact (@row_order_irrelevant df_underflow (rev df_underflow) 3 10 Hnd Hp).
Defined.

(** With an hour listed twice the order does matter: the record listed
    first is the one that counts. *)
Example row_order_matters_with_duplicates :
  calculate_stock_for_initial_value
    [mkRow 1 0 7 2; mkRow 1 0 7 50] 0 10 = Ok ([(0%Z, 0)], 0) /\
  calculate_stock_for_initial_value
    [mkRow 1 0 7 50; mkRow 1 0 7 2] 0 10 = Ok ([(0%Z, 0)], 40).
Proof. split; vm_compute; reflexivity. Qed.

(* ------------------------------------------------------------------ *)
(** * Further properties of the optimiser *)

(** The two ways the scan can end. *)
Lemma find_optimal_cases (df : DataFrame) (capacity : Q) :
  ((int capacity + 1 <= 0)%Z /\
   find_optimal_initial_stock df capacity = Ok scan_init) \/
  ((0 <= int capacity)%Z /\
   exists b,
     find_optimal_initial_stock df capacity
     = Ok (mkScan b (Some (traj_of df capacity b))
                  (Fin (trunc_of df capacity b))) /\
     (0 <= b <= int capacity)%Z /\
     (forall k, (0 <= k <= int capacity)%Z ->
                trunc_of df capacity b <= trunc_of df capacity k)).
Proof.
  destruct (Z_le_gt_dec (int capacity + 1) 0) as [Hn|Hp].
  - left. split; [exact Hn|].
    unfold find_optimal_initial_stock. cbv zeta. now rewrite range_nonpos.
  - right. assert (H0 : (0 <= int capacity)%Z) by lia. split; [exact H0|].
    destruct (scan_spec df capacity H0) as (b & Hrun & Hb & Hle & _).
    exists b. auto.
Qed.

(** X5. For a finite capacity, a run of the optimiser that returns has no
    trajectory exactly when [int(capacity) + 1 <= 0]; likewise its minimum is
    still [float('inf')] exactly then, and in that case all three returned
    values are the initial ones (0, [None], [float('inf')]). *)
Theorem no_trajectory_iff_no_candidate
    (df : DataFrame) (capacity : Q) (st : scan_state) :
  find_optimal_initial_stock df capacity = Ok st ->
  (best_stock_by_hour st = None <-> (int capacity + 1 <= 0)%Z) /\
  (min_truncations st = PInf <-> (int capacity + 1 <= 0)%Z) /\
  (best_stock_by_hour st = None -> st = scan_init).
Proof.
  intros Hst.
  destruct (find_optimal_cases df capacity)
    as [[Hn Hrun]|[Hp (b & Hrun & Hb & _)]];
    rewrite Hrun in Hst; injection Hst as <-; simpl.
  - repeat split; auto.
  - repeat split; intros H; try discriminate H; lia.
Qed.

Lemma no_trajectory_iff_no_candidate_witness :
  find_optimal_initial_stock df_scenario_a (-3) = Ok scan_init /\
  (best_stock_by_hour scan_init = None <-> (int (-3) + 1 <= 0)%Z) /\
  (min_truncations scan_init = PInf <-> (int (-3) + 1 <= 0)%Z) /\
  (best_stock_by_hour scan_init = None -> scan_init = scan_init).
Proof.
  assert (Hst : find_optimal_initial_stock df_scenario_a (-3) = Ok scan_init)
    by (vm_compute; reflexivity).
  split; [exact Hst|].
  exact (@no_trajectory_iff_no_candidate df_scenario_a (-3) scan_init Hst).
Defined.

Lemma inject_Z_in_range (capacity : Q) (k : Z) :
  0 <= capacity -> (0 <= k <= int capacity)%Z ->
  in_range capacity (inject_Z k).
Proof.
  intros Hc [Hk0 Hk1]. pose proof (@int_le capacity Hc) as Hint.
  rewrite Zle_Qle in Hk0, Hk1. split; [exact Hk0 | lra].
Qed.

(** X6. For a non-negative capacity the trajectory the optimiser returns has
    one entry per distinct hour in ascending order, all of its stock values
    lie in [[0, capacity]], and its truncation lies between 0 and the sum of
    the absolute hourly demands. *)
Theorem optimum_within_capacity (df : DataFrame) (capacity : Q) :
  0 <= capacity ->
  exists b sbh m,
    find_optimal_initial_stock df capacity
      = Ok (mkScan b (Some sbh) (Fin m)) /\
    keys sbh = sorted (unique (map hour df)) /\
    Forall (in_range capacity) (values sbh) /\
    0 <= m /\ m <= total_abs_demand df.
Proof.
  intros Hc.
  destruct (find_optimal_cases df capacity)
    as [[Hn _]|[Hp (b & Hrun & Hb & Hle)]].
  - assert (H0 : (0 <= int capacity)%Z) by (apply int_nonneg; lra). lia.
  - do 3 eexists. split; [exact Hrun|].
    split; [unfold traj_of; now rewrite keys_trace, keys_ordered_net_demands|].
    split; [apply trace_in_range; now apply inject_Z_in_range|].
    split; [apply trunc_of_nonneg|].
    unfold trunc_of. rewrite total_cost, Qplus_0_l.
    apply cost_le_abs. now apply inject_Z_in_range.
Qed.

Lemma optimum_within_capacity_witness :
  0 <= 10 /\
  exists b sbh m,
    find_optimal_initial_stock df_scenario_a 10
      = Ok (mkScan b (Some sbh) (Fin m)) /\
    keys sbh = sorted (unique (map hour df_scenario_a)) /\
    Forall (in_range 10) (values sbh) /\
    0 <= m /\ m <= total_abs_demand df_scenario_a.
Proof.
  assert (Hc : 0 <= 10) by (unfold Qle; simpl; lia).
  split; [exact Hc|].
  exact (optimum_within_capacity df_scenario_a Hc).
Defined.

(** X7. For a non-negative capacity the returned minimum is 0 exactly when some
    integer initial stock of [0 .. int(capacity)] lets the unclamped
    trajectory stay inside [[0, capacity]]. *)
Theorem zero_minimum_iff_feasible_start (df : DataFrame) (capacity : Q) :
  0 <= capacity ->
  exists b sbh m,
    find_optimal_initial_stock df capacity
      = Ok (mkScan b (Some sbh) (Fin m)) /\
    (m == 0 <->
     exists k, (0 <= k <= int capacity)%Z /\
               Forall (in_range capacity)
                      (unclamped_trajectory df (inject_Z k))).
Proof.
  intros Hc.
  destruct (find_optimal_cases df capacity)
    as [[Hn _]|[Hp (b & Hrun & Hb & Hle)]].
  - assert (H0 : (0 <= int capacity)%Z) by (apply int_nonneg; lra). lia.
  - do 3 eexists. split; [exact Hrun|].
    assert (Hz : forall k, (0 <= k <= int capacity)%Z ->
                 (trunc_of df capacity k == 0 <->
                  Forall (in_range capacity)
                         (unclamped_trajectory df (inject_Z k)))).
    { intros k Hk. unfold trunc_of, unclamped_trajectory.
      rewrite total_cost, Qplus_0_l, cost_zero_iff. split.
      - intros H. constructor; [now apply inject_Z_in_range | exact H].
      - intros H. now inversion H. }
    split.
    + intros Hm. exists b. split; [exact Hb|]. now apply Hz.
    + intros (k & Hk & Hfeas). apply Hz in Hfeas; [|exact Hk].
      pose proof (Hle k Hk). pose proof (trunc_of_nonneg df capacity b). lra.
Qed.

Lemma zero_minimum_iff_feasible_start_witness :
  0 <= 10 /\
  exists b sbh m,
    find_optimal_initial_stock df_underflow 10
      = Ok (mkScan b (Some sbh) (Fin m)) /\
    (m == 0 <->
     exists k, (0 <= k <= int 10)%Z /\
               Forall (in_range 10)
                      (unclamped_trajectory df_underflow (inject_Z k))).
Proof.
  assert (Hc : 0 <= 10) by (unfold Qle; simpl; lia).
  split; [exact Hc|].
  exact (zero_minimum_iff_feasible_start df_underflow Hc).
Defined.

(* ------------------------------------------------------------------ *)
(** * The grouping loop in closed form *)

Lemma first_row_spec (df : DataFrame) (h : Z) :
  In h (map hour df) ->
  exists rest, select_hour df h = first_row df h :: rest.
Proof.
  intros H. destruct (select_hour_nonempty df h H) as (r & rest & E).
  exists rest. unfold first_row. now rewrite E.
Qed.

Lemma first_row_In (df : DataFrame) (h : Z) :
  In h (map hour df) -> In (first_row df h) df /\ hour (first_row df h) = h.
Proof.
  intros H. destruct (first_row_spec df h H) as [rest E].
  assert (Hin : In (first_row df h) (select_hour df h))
    by (rewrite E; now left).
  apply filter_In in Hin. destruct Hin as [Hin Hh].
  now apply Z.eqb_eq in Hh.
Qed.

Lemma items_loop_ok (df : DataFrame) (b : Z) (m : ext) (items : dict) :
  forall results,
    (forall e, In e items -> In (fst e) (map hour df)) ->
    items_loop df b m items results =
    Ok (results ++
        map (fun e => mkStockRow (first_row df (fst e)) (snd e) b m) items).
Proof.
  induction items as [|[h s] items IH]; intros results Hin;
    cbn [items_loop map].
  - now rewrite app_nil_r.
  - destruct (first_row_spec df h) as [rest E];
      [apply (Hin (h, s)); now left|].
    rewrite E. cbn [iloc0 bind fst snd].
    rewrite IH by (intros e He; apply Hin; now right).
    now rewrite <- app_assoc.
Qed.

Lemma group_body_closed (df : DataFrame) (capacity : option cell)
    (results : list StockRow) :
  group_body df capacity results =
  if group_raises df capacity then Err AttributeError
  else Ok (results ++ group_rows df capacity).
Proof.
  destruct df as [|r rest]; [simpl; now rewrite app_nil_r|].
  unfold group_body, group_raises, group_rows. cbn [length Nat.eqb].
  destruct capacity as [[c|]|]; try (now rewrite app_nil_r).
  destruct (find_optimal_cases (r :: rest) c)
    as [[Hn Hrun]|[Hp (b & Hrun & Hb & _)]]; rewrite Hrun; cbn [bind].
  - apply Z.leb_le in Hn. now rewrite Hn.
  - assert (Hf : (int c + 1 <=? 0)%Z = false) by (apply Z.leb_gt; lia).
    rewrite Hf. cbn [best_stock_by_hour best_initial_stock min_truncations].
    apply items_loop_ok. intros e He.
    apply hours_of_In. rewrite <- keys_ordered_net_demands.
    rewrite <- (keys_trace c (ordered_net_demands (r :: rest)) (inject_Z b)).
    now apply in_map.
Qed.

Lemma stations_loop_closed (df_day : DataFrame) (caps : capacity_table)
    (locs : list Z) :
  forall results,
    stations_loop df_day caps locs results =
    if existsb (fun l => group_raises (select_loc df_day l) (dict_get l caps))
               locs
    then Err AttributeError
    else Ok (results ++
             flat_map (fun l => group_rows (select_loc df_day l)
                                           (dict_get l caps)) locs).
Proof.
  induction locs as [|l locs IH]; intros results;
    cbn [stations_loop existsb flat_map].
  - now rewrite app_nil_r.
  - rewrite group_body_closed.
    destruct (group_raises (select_loc df_day l) (dict_get l caps));
      cbn [bind orb]; [reflexivity|].
    rewrite IH.
    destruct (existsb _ locs); [reflexivity|]. now rewrite <- app_assoc.
Qed.

Lemma days_loop_closed (df : DataFrame) (caps : capacity_table)
    (stations days : list Z) :
  forall results,
    days_loop df caps days stations results =
    if existsb (fun d =>
                  existsb (fun l => group_raises (group_of df d l)
                                                 (dict_get l caps)) stations)
               days
    then Err AttributeError
    else Ok (results ++
             flat_map (fun d =>
                         flat_map (fun l => group_rows (group_of df d l)
                                                       (dict_get l caps))
                                  stations) days).
Proof.
  induction days as [|d days IH]; intros results;
    cbn [days_loop existsb flat_map].
  - now rewrite app_nil_r.
  - rewrite stations_loop_closed. fold (group_of df d).
    unfold group_of at 1 2.
    destruct (existsb _ stations); cbn [bind orb]; [reflexivity|].
    rewrite IH.
    destruct (existsb _ days); [reflexivity|]. now rewrite <- app_assoc.
Qed.

Lemma create_stock_csv_closed (df : DataFrame) (caps : capacity_table) :
  create_stock_csv df caps =
  if existsb (fun d =>
                existsb (fun l => group_raises (group_of df d l)
                                               (dict_get l caps))
                        (sorted (unique (map loc_id df))))
             (sorted (unique (map day df)))
  then Err AttributeError
  else Ok (flat_map (fun d =>
                       flat_map (fun l => group_rows (group_of df d l)
                                                     (dict_get l caps))
                                (sorted (unique (map loc_id df))))
                    (sorted (unique (map day df)))).
Proof. unfold create_stock_csv. cbv zeta. now rewrite days_loop_closed. Qed.

Lemma sorted_unique_In (l : list Z) (x : Z) :
  In x (sorted (unique l)) <-> In x l.
Proof. now rewrite sorted_In, unique_In. Qed.

Lemma group_of_In (df : DataFrame) (d l : Z) (r : Row) :
  In r (group_of df d l) <-> In r df /\ day r = d /\ loc_id r = l.
Proof.
  unfold group_of, select_loc, select_day.
  rewrite !filter_In, !Z.eqb_eq. tauto.
Qed.

Lemma group_raises_true (g : DataFrame) (capacity : option cell) :
  group_raises g capacity = true <->
  g <> [] /\ exists c, capacity = Some (Num c) /\ (int c + 1 <= 0)%Z.
Proof.
  unfold group_raises. destruct g as [|r rest].
  - split; [discriminate | intros [H _]; congruence].
  - destruct capacity as [[c|]|].
    + rewrite Z.leb_le. split.
      * intros H. split; [discriminate|]. now exists c.
      * intros [_ (c' & E & H)]. now injection E as <-.
    + split; [discriminate | intros [_ (c & E & _)]; discriminate].
    + split; [discriminate | intros [_ (c & E & _)]; discriminate].
Qed.

Lemma some_group_raises_iff (df : DataFrame) (caps : capacity_table) :
  existsb (fun d =>
             existsb (fun l => group_raises (group_of df d l)
                                            (dict_get l caps))
                     (sorted (unique (map loc_id df))))
          (sorted (unique (map day df))) = true <->
  exists r, In r df /\ unscannable caps r.
Proof.
  rewrite existsb_exists. split.
  - intros (d & _ & H). apply existsb_exists in H.
    destruct H as (l & _ & H). apply group_raises_true in H.
    destruct H as [Hne (c & Hc & Hint)].
    destruct (group_of df d l) as [|r rest] eqn:Eg; [congruence|].
    assert (Hr : In r (group_of df d l)) by (rewrite Eg; now left).
    apply group_of_In in Hr. destruct Hr as (Hin & _ & Hl).
    exists r. split; [exact Hin|]. exists c. now rewrite Hl.
  - intros (r & Hin & c & Hc & Hint).
    exists (day r). split; [apply sorted_unique_In; now apply in_map|].
    apply existsb_exists. exists (loc_id r).
    split; [apply sorted_unique_In; now apply in_map|].
    apply group_raises_true. split; [|now exists c].
    intros E.
    assert (Hr : In r (group_of df (day r) (loc_id r)))
      by (apply group_of_In; auto).
    now rewrite E in Hr.
Qed.

(** X8. With finite capacities, the loops of [create_stock_csv] raise the
    [AttributeError] of [None.items()] exactly when some record belongs to a
    station whose numeric capacity gives [int(capacity) + 1 <= 0]. *)
Theorem create_stock_csv_raises_iff
    (df_test : DataFrame) (capacity_dict : capacity_table) :
  create_stock_csv df_test capacity_dict = Err AttributeError <->
  exists r, In r df_test /\ unscannable capacity_dict r.
Proof.
  rewrite create_stock_csv_closed, <- some_group_raises_iff.
  destruct (existsb _ (sorted (unique (map day df_test)))).
  - tauto.
  - split; intros H; discriminate H.
Qed.

(** What the rows of one group look like. *)
Lemma group_rows_In (g : DataFrame) (capacity : option cell) (o : StockRow) :
  In o (group_rows g capacity) ->
  exists c b h,
    capacity = Some (Num c) /\
    (0 <= b <= int c)%Z /\
    find_optimal_initial_stock g c
    = Ok (mkScan b (Some (traj_of g c b)) (Fin (trunc_of g c b))) /\
    (forall k, (0 <= k <= int c)%Z -> trunc_of g c b <= trunc_of g c k) /\
    In h (map hour g) /\
    In (h, stock o) (traj_of g c b) /\
    source_row o = first_row g h /\
    initial_stock o = b /\
    total_truncations o = Fin (trunc_of g c b).
Proof.
  unfold group_rows. destruct g as [|r rest]; [intros []|].
  destruct capacity as [[c|]|]; try (intros []).
  destruct (find_optimal_cases (r :: rest) c)
    as [[Hn Hrun]|[Hp (b & Hrun & Hb & Hle)]]; rewrite Hrun; simpl;
    [intros []|].
  intros Ho. apply in_map_iff in Ho. destruct Ho as ([h s] & <- & He).
  assert (Hh : In h (map hour (r :: rest))).
  { apply hours_of_In. rewrite <- keys_ordered_net_demands.
    rewrite <- (keys_trace c (ordered_net_demands (r :: rest)) (inject_Z b)).
    apply (in_map fst) in He. exact He. }
  exists c, b, h.
  cbn [source_row stock initial_stock total_truncations fst snd].
  repeat split; try assumption; try lia.
Qed.

(** Every row of a successful run, traced back to its group. *)
Lemma output_row_spec (df : DataFrame) (caps : capacity_table)
    (rows : list StockRow) (o : StockRow) :
  create_stock_csv df caps = Ok rows ->
  In o rows ->
  exists c b rest,
    In (source_row o) df /\
    dict_get (row_loc o) caps = Some (Num c) /\
    (0 <= b <= int c)%Z /\
    find_optimal_initial_stock (group_of df (row_day o) (row_loc o)) c
    = Ok (mkScan b
            (Some (traj_of (group_of df (row_day o) (row_loc o)) c b))
            (Fin (trunc_of (group_of df (row_day o) (row_loc o)) c b))) /\
    In (row_hour o, stock o)
       (traj_of (group_of df (row_day o) (row_loc o)) c b) /\
    select_hour (group_of df (row_day o) (row_loc o)) (row_hour o)
    = source_row o :: rest /\
    initial_stock o = b /\
    total_truncations o
    = Fin (trunc_of (group_of df (row_day o) (row_loc o)) c b).
Proof.
  rewrite create_stock_csv_closed.
  destruct (existsb _ (sorted (unique (map day df)))); [discriminate|].
  intros H Ho. injection H as <-.
  apply in_flat_map in Ho. destruct Ho as (d & _ & Ho).
  apply in_flat_map in Ho. destruct Ho as (l & _ & Ho).
  apply group_rows_In in Ho.
  destruct Ho as (c & b & h & Hc & Hb & Hrun & _ & Hh & He & Hs & Hi & Ht).
  destruct (first_row_In _ _ Hh) as [Hin Hhour].
  apply group_of_In in Hin. destruct Hin as (Hin & Hd & Hl).
  destruct (first_row_spec _ _ Hh) as [rest Hsel].
  unfold row_day, row_loc, row_hour. rewrite Hs, Hd, Hl, Hhour.
  exists c, b, rest. repeat split; try assumption; lia.
Qed.

Example create_stock_csv_two_days :
  create_stock_csv df_two_days caps_two_days = Ok rows_two_days.
Proof. vm_compute. reflexivity. Qed.

(* ------------------------------------------------------------------ *)
(** * The rows of a successful run *)

(** X9. Every output row stems from a record of the input whose station has a
    numeric capacity entry with [int(capacity) >= 0] (stations missing from
    the table or listed with a missing value yield no row), and that record
    is the first one of its hour in its (day, station) group. *)
Theorem output_rows_have_capacity
    (df_test : DataFrame) (capacity_dict : capacity_table)
    (rows : list StockRow) (o : StockRow) :
  create_stock_csv df_test capacity_dict = Ok rows ->
  In o rows ->
  In (source_row o) df_test /\
  (exists c, dict_get (row_loc o) capacity_dict = Some (Num c) /\
             (0 <= int c)%Z) /\
  (exists rest,
      select_hour (group_of df_test (row_day o) (row_loc o)) (row_hour o)
      = source_row o :: rest).
Proof.
  intros Hrun Ho.
  destruct (@output_row_spec df_test capacity_dict rows o Hrun Ho)
    as (c & b & rest & Hin & Hc & Hb & _ & _ & Hsel & _).
  split; [exact Hin|]. split; [exists c; split; [exact Hc | lia]|].
  now exists rest.
Qed.

Lemma output_rows_have_capacity_witness :
  create_stock_csv df_two_days caps_two_days = Ok rows_two_days /\
  In (mkStockRow (mkRow 2 0 8 4) 0 0 (Fin 2)) rows_two_days /\
  In (mkRow 2 0 8 4) df_two_days /\
  (exists c, dict_get 8 caps_two_days = Some (Num c) /\ (0 <= int c)%Z) /\
  (exists rest,
      select_hour (group_of df_two_days 2 8) 0 = mkRow 2 0 8 4 :: rest).
Proof.
  assert (Hrun : create_stock_csv df_two_days caps_two_days
                 = Ok rows_two_days) by (vm_compute; reflexivity).
  assert (Ho : In (mkStockRow (mkRow 2 0 8 4) 0 0 (Fin 2)) rows_two_days)
    by (simpl; auto).
  split; [exact Hrun|]. split; [exact Ho|].
  exact (@output_rows_have_capacity _ _ _ _ Hrun Ho).
Defined.

(** X10. Every output row reports the optimum of its own (day, station) group:
    its [initial_stock] and [total_truncations] are the ones
    [find_optimal_initial_stock] returns for the group, and its [stock] is
    the entry of the returned trajectory for the row's hour. *)
Theorem output_rows_report_optimum
    (df_test : DataFrame) (capacity_dict : capacity_table)
    (rows : list StockRow) (o : StockRow) :
  create_stock_csv df_test capacity_dict = Ok rows ->
  In o rows ->
  exists c st sbh,
    dict_get (row_loc o) capacity_dict = Some (Num c) /\
    find_optimal_initial_stock
      (group_of df_test (row_day o) (row_loc o)) c = Ok st /\
    best_stock_by_hour st = Some sbh /\
    In (row_hour o, stock o) sbh /\
    initial_stock o = best_initial_stock st /\
    total_truncations o = min_truncations st.
Proof.
  intros Hrun Ho.
  destruct (@output_row_spec df_test capacity_dict rows o Hrun Ho)
    as (c & b & rest & _ & Hc & _ & Hfind & He & _ & Hi & Ht).
  do 3 eexists. split; [exact Hc|]. split; [exact Hfind|].
  split; [reflexivity|]. split; [exact He|]. split; assumption.
Qed.

Lemma output_rows_report_optimum_witness :
  create_stock_csv df_two_days caps_two_days = Ok rows_two_days /\
  In (mkStockRow (mkRow 1 1 7 (-3)) 3 1 (Fin 0)) rows_two_days /\
  exists c st sbh,
    dict_get 7 caps_two_days = Some (Num c) /\
    find_optimal_initial_stock (group_of df_two_days 1 7) c = Ok st /\
    best_stock_by_hour st = Some sbh /\
    In (1%Z, 3) sbh /\
    1%Z = best_initial_stock st /\
    Fin 0 = min_truncations st.
Proof.
  assert (Hrun : create_stock_csv df_two_days caps_two_days
                 = Ok rows_two_days) by (vm_compute; reflexivity).
  assert (Ho : In (mkStockRow (mkRow 1 1 7 (-3)) 3 1 (Fin 0)) rows_two_days)
    by (simpl; auto).
  split; [exact Hrun|]. split; [exact Ho|].
  exact (@output_rows_report_optimum _ _ _ _ Hrun Ho).
Defined.

(** X11. For a station with a non-negative capacity every output row keeps the
    stock inside [[0, capacity]], the reported initial stock inside
    [0 .. int(capacity)], and the reported truncation finite and
    non-negative. *)
Theorem output_stock_within_capacity
    (df_test : DataFrame) (capacity_dict : capacity_table)
    (rows : list StockRow) (o : StockRow) (c : Q) :
  create_stock_csv df_test capacity_dict = Ok rows ->
  In o rows ->
  dict_get (row_loc o) capacity_dict = Some (Num c) ->
  0 <= c ->
  in_range c (stock o) /\
  (0 <= initial_stock o <= int c)%Z /\
  exists t, total_truncations o = Fin t /\ 0 <= t.
Proof.
  intros Hrun Ho Hc Hc0.
  destruct (@output_row_spec df_test capacity_dict rows o Hrun Ho)
    as (c' & b & rest & _ & Hc' & Hb & _ & He & _ & Hi & Ht).
  rewrite Hc in Hc'. injection Hc' as <-. split; [|split].
  - pose proof (@trace_in_range c
                  (ordered_net_demands
                     (group_of df_test (row_day o) (row_loc o)))
                  (inject_Z b)
                  (@inject_Z_in_range c b Hc0 Hb)) as Hall.
    rewrite Forall_forall in Hall. apply Hall.
    apply (in_map snd) in He. exact He.
  - rewrite Hi. exact Hb.
  - eexists. split; [exact Ht | apply trunc_of_nonneg].
Qed.

Lemma output_stock_within_capacity_witness :
  create_stock_csv df_two_days caps_two_days = Ok rows_two_days /\
  In (mkStockRow (mkRow 1 1 7 (-3)) 3 1 (Fin 0)) rows_two_days /\
  dict_get 7 caps_two_days = Some (Num 3) /\
  0 <= 3 /\
  in_range 3 3 /\
  (0 <= 1 <= int 3)%Z /\
  exists t, Fin 0 = Fin t /\ 0 <= t.
Proof.
  assert (Hrun : create_stock_csv df_two_days caps_two_days
                 = Ok rows_two_days) by (vm_compute; reflexivity).
  assert (Ho : In (mkStockRow (mkRow 1 1 7 (-3)) 3 1 (Fin 0)) rows_two_days)
    by (simpl; auto).
  assert (Hc : dict_get 7 caps_two_days = Some (Num 3)) by reflexivity.
  assert (Hc0 : 0 <= 3) by (unfold Qle; simpl; lia).
  split; [exact Hrun|]. split; [exact Ho|]. split; [exact Hc|].
  split; [exact Hc0|].
  exact (@output_stock_within_capacity _ _ _ _ _ Hrun Ho Hc Hc0).
Defined.

(** X12. Every record whose station has a numeric capacity is represented: a
    successful run contains a row with the record's day, hour and station. *)
Theorem every_record_with_capacity_has_a_row
    (df_test : DataFrame) (capacity_dict : capacity_table)
    (rows : list StockRow) (r : Row) (c : Q) :
  create_stock_csv df_test capacity_dict = Ok rows ->
  In r df_test ->
  dict_get (loc_id r) capacity_dict = Some (Num c) ->
  exists o, In o rows /\
            row_day o = day r /\ row_hour o = hour r /\ row_loc o = loc_id r.
Proof.
  rewrite create_stock_csv_closed.
  destruct (existsb _ (sorted (unique (map day df_test)))) eqn:Eraise;
    [discriminate|].
  intros H Hr Hc. injection H as <-.
  assert (Hg : In r (group_of df_test (day r) (loc_id r)))
    by (apply group_of_In; auto).
  assert (Hint : (0 <= int c)%Z).
  { destruct (Z_le_gt_dec (int c + 1) 0) as [Hbad|]; [|lia].
    assert (Hex : exists r, In r df_test /\ unscannable capacity_dict r)
      by (exists r; split; [exact Hr | now exists c]).
    apply some_group_raises_iff in Hex. congruence. }
  assert (Hh : In (hour r) (map hour (group_of df_test (day r) (loc_id r))))
    by now apply in_map.
  destruct (@first_row_In _ _ Hh) as [Hfirst Hhour].
  apply group_of_In in Hfirst. destruct Hfirst as (_ & Hd & Hl).
  destruct (scan_spec (group_of df_test (day r) (loc_id r)) c Hint)
    as (b & Hrun & _).
  assert (Hk : In (hour r)
                  (keys (traj_of (group_of df_test (day r) (loc_id r)) c b))).
  { unfold traj_of. rewrite keys_trace, keys_ordered_net_demands.
    now apply hours_of_In. }
  apply in_map_iff in Hk. destruct Hk as ([h s] & Eh & He).
  simpl in Eh. subst h.
  exists (mkStockRow (first_row (group_of df_test (day r) (loc_id r)) (hour r))
                     s b
                     (Fin (trunc_of (group_of df_test (day r) (loc_id r))
                                    c b))).
  split; [|unfold row_day, row_hour, row_loc; simpl; auto].
  apply in_flat_map. exists (day r).
  split; [apply sorted_unique_In; now apply in_map|].
  apply in_flat_map. exists (loc_id r).
  split; [apply sorted_unique_In; now apply in_map|].
  unfold group_rows. rewrite Hc.
  destruct (group_of df_test (day r) (loc_id r)) as [|r0 rest] eqn:Eg;
    [contradiction|].
  rewrite Hrun. simpl.
  apply in_map_iff. exists (hour r, s). split; [reflexivity | exact He].
Qed.

Lemma every_record_with_capacity_has_a_row_witness :
  create_stock_csv df_two_days caps_two_days = Ok rows_two_days /\
  In (mkRow 2 0 8 4) df_two_days /\
  dict_get 8 caps_two_days = Some (Num 2) /\
  exists o, In o rows_two_days /\
            row_day o = 2%Z /\ row_hour o = 0%Z /\ row_loc o = 8%Z.
Proof.
  assert (Hrun : create_stock_csv df_two_days caps_two_days
                 = Ok rows_two_days) by (vm_compute; reflexivity).
  assert (Hr : In (mkRow 2 0 8 4) df_two_days) by (simpl; auto 10).
  assert (Hc : dict_get 8 caps_two_days = Some (Num 2)) by reflexivity.
  split; [exact Hrun|]. split; [exact Hr|]. split; [exact Hc|].
  exact (@every_record_with_capacity_has_a_row _ _ _ _ _ Hrun Hr Hc).
Defined.

(* ------------------------------------------------------------------ *)
(** * The order of the output rows *)

Lemma StronglySorted_app_intro (A : Type) (R : A -> A -> Prop)
    (l1 l2 : list A) :
  StronglySorted R l1 -> StronglySorted R l2 ->
  (forall a b, In a l1 -> In b l2 -> R a b) ->
  StronglySorted R (l1 ++ l2).
Proof.
  induction 1 as [|a l1 Hs IH Ha]; intros H2 Hcross; simpl; [exact H2|].
  constructor.
  - apply IH; [exact H2|]. intros x y Hx Hy.
    apply Hcross; [now right | exact Hy].
  - apply Forall_app. split; [exact Ha|].
    apply Forall_forall. intros y Hy. apply Hcross; [now left | exact Hy].
Qed.

Lemma StronglySorted_flat_map (A B : Type) (RA : A -> A -> Prop)
    (R : B -> B -> Prop) (f : A -> list B) (xs : list A) :
  StronglySorted RA xs ->
  (forall x, In x xs -> StronglySorted R (f x)) ->
  (forall x y a b, RA x y -> In a (f x) -> In b (f y) -> R a b) ->
  StronglySorted R (flat_map f xs).
Proof.
  intros Hxs Hin Hcross.
  induction Hxs as [|x xs Hs IH Hx]; simpl; [constructor|].
  apply StronglySorted_app_intro.
  - apply Hin. now left.
  - apply IH. intros y Hy. apply Hin. now right.
  - intros a b Ha Hb. apply in_flat_map in Hb. destruct Hb as (y & Hy & Hb).
    rewrite Forall_forall in Hx. exact (Hcross x y a b (Hx y Hy) Ha Hb).
Qed.

Lemma StronglySorted_map_in (A B : Type) (RA : A -> A -> Prop)
    (R : B -> B -> Prop) (f : A -> B) (l : list A) :
  StronglySorted RA l ->
  (forall a b, In a l -> In b l -> RA a b -> R (f a) (f b)) ->
  StronglySorted R (map f l).
Proof.
  induction 1 as [|a l Hs IH Ha]; intros Hf; simpl; constructor.
  - apply IH. intros x y Hx Hy. apply Hf; now right.
  - apply Forall_forall. intros y Hy. apply in_map_iff in Hy.
    destruct Hy as (x & <- & Hx). rewrite Forall_forall in Ha.
    apply Hf; [now left | now right | now apply Ha].
Qed.

Lemma StronglySorted_map_inv (A B : Type) (R : B -> B -> Prop)
    (f : A -> B) (l : list A) :
  StronglySorted R (map f l) ->
  StronglySorted (fun a b => R (f a) (f b)) l.
Proof.
  induction l as [|a l IH]; simpl; intros H; constructor;
    inversion H as [|? ? Hs Ha]; subst.
  - now apply IH.
  - apply Forall_forall. intros y Hy. rewrite Forall_forall in Ha.
    apply Ha. now apply in_map.
Qed.

Lemma StronglySorted_impl_in (A : Type) (R R' : A -> A -> Prop)
    (l : list A) :
  StronglySorted R l ->
  (forall a b, In a l -> In b l -> R a b -> R' a b) ->
  StronglySorted R' l.
Proof.
  intros Hs Himp. rewrite <- (map_id l).
  now apply StronglySorted_map_in with (RA := R).
Qed.

Lemma sorted_unique_ascending (l : list Z) :
  StronglySorted Z.lt (sorted (unique l)).
Proof.
  apply sorted_lt_of_NoDup; [apply sorted_le|].
  apply sorted_NoDup, unique_NoDup.
Qed.

Lemma group_rows_source (df : DataFrame) (d l : Z) (capacity : option cell)
    (o : StockRow) :
  In o (group_rows (group_of df d l) capacity) ->
  row_day o = d /\ row_loc o = l.
Proof.
  intros Ho. apply group_rows_In in Ho.
  destruct Ho as (c & b & h & _ & _ & _ & _ & Hh & _ & Hs & _).
  destruct (@first_row_In _ _ Hh) as [Hin _].
  apply group_of_In in Hin. unfold row_day, row_loc. rewrite Hs. tauto.
Qed.

Lemma group_rows_ascending (g : DataFrame) (capacity : option cell) :
  StronglySorted (fun a b => (row_hour a < row_hour b)%Z)
                 (group_rows g capacity).
Proof.
  unfold group_rows. destruct g as [|r rest]; [constructor|].
  destruct capacity as [[c|]|]; try constructor.
  destruct (find_optimal_cases (r :: rest) c)
    as [[Hn Hrun]|[Hp (b & Hrun & Hb & Hle)]]; rewrite Hrun;
    cbn [best_stock_by_hour best_initial_stock min_truncations];
    [constructor|].
  assert (Hk : keys (traj_of (r :: rest) c b) = hours_of (r :: rest)).
  { unfold traj_of. now rewrite keys_trace, keys_ordered_net_demands. }
  eapply StronglySorted_map_in.
  - apply (@StronglySorted_map_inv _ _ Z.lt fst).
    fold (keys (traj_of (r :: rest) c b)). rewrite Hk.
    apply hours_of_ascending.
  - intros e1 e2 H1 H2 Hlt. unfold row_hour. cbn [source_row].
    assert (Hin : forall e, In e (traj_of (r :: rest) c b) ->
                            hour (first_row (r :: rest) (fst e)) = fst e).
    { intros e He. apply first_row_In, hours_of_In. rewrite <- Hk.
      now apply in_map. }
    now rewrite !Hin.
Qed.

Lemma results_ascending (df : DataFrame) (caps : capacity_table)
    (rows : list StockRow) :
  create_stock_csv df caps = Ok rows ->
  StronglySorted row_before rows.
Proof.
  rewrite create_stock_csv_closed.
  destruct (existsb _ (sorted (unique (map day df)))); [discriminate|].
  intros H. injection H as <-.
  apply StronglySorted_flat_map with (RA := Z.lt).
  - apply sorted_unique_ascending.
  - intros d _. apply StronglySorted_flat_map with (RA := Z.lt).
    + apply sorted_unique_ascending.
    + intros l _.
      apply StronglySorted_impl_in
        with (R := fun a b => (row_hour a < row_hour b)%Z);
        [apply group_rows_ascending|].
      intros a b Ha Hb Hlt. apply group_rows_source in Ha, Hb.
      unfold row_before. right. split; [lia|]. right. split; [lia|exact Hlt].
    + intros l1 l2 a b Hl Ha Hb. apply group_rows_source in Ha, Hb.
      unfold row_before. right. split; [lia|]. left. lia.
  - intros d1 d2 a b Hd Ha Hb.
    apply in_flat_map in Ha, Hb.
    destruct Ha as (l1 & _ & Ha). destruct Hb as (l2 & _ & Hb).
    apply group_rows_source in Ha, Hb. unfold row_before. left. lia.
Qed.

(** X13. The rows of a successful run are listed in the order the loop visits
    them: by day, within a day by station, within a station by hour, each
    strictly ascending. *)
Theorem results_in_visiting_order
    (df_test : DataFrame) (capacity_dict : capacity_table)
    (rows : list StockRow) :
  create_stock_csv df_test capacity_dict = Ok rows ->
  StronglySorted row_before rows.
Proof. apply results_ascending. Qed.

Lemma results_in_visiting_order_witness :
  create_stock_csv df_two_days caps_two_days = Ok rows_two_days /\
  StronglySorted row_before rows_two_days.
Proof.
  assert (Hrun : create_stock_csv df_two_days caps_two_days
                 = Ok rows_two_days) by (vm_compute; reflexivity).
  split; [exact Hrun|].
  exact (@results_in_visiting_order _ _ _ Hrun).
Defined.

Lemma row_before_distinct (a b : StockRow) :
  row_before a b -> sort_key a <> sort_key b.
Proof.
  unfold row_before, sort_key. intros H E. injection E as E1 E2 E3. lia.
Qed.

Lemma sorted_distinct (A B : Type) (R : A -> A -> Prop) (f : A -> B)
    (l : list A) :
  StronglySorted R l -> (forall a b, R a b -> f a <> f b) ->
  NoDup (map f l).
Proof.
  induction 1 as [|a l Hs IH Ha]; intros Hf; simpl; constructor.
  - intros Hin. apply in_map_iff in Hin. destruct Hin as (b & E & Hb).
    rewrite Forall_forall in Ha. apply (Hf a b (Ha b Hb)). now symmetry.
  - now apply IH.
Qed.

Lemma results_distinct_keys (df : DataFrame) (caps : capacity_table)
    (rows : list StockRow) :
  create_stock_csv df caps = Ok rows -> NoDup (map sort_key rows).
Proof.
  intros H. apply sorted_distinct with (R := row_before).
  - now apply results_ascending in H.
  - apply row_before_distinct.
Qed.

(** X14. No two rows of a successful run share (day, hour, loc_id), even when
    the input lists a (day, hour, station) several times. *)
Theorem output_keys_distinct
    (df_test : DataFrame) (capacity_dict : capacity_table)
    (rows : list StockRow) :
  create_stock_csv df_test capacity_dict = Ok rows ->
  NoDup (map sort_key rows).
Proof. apply results_distinct_keys. Qed.

Lemma output_keys_distinct_witness :
  create_stock_csv df_two_days caps_two_days = Ok rows_two_days /\
  NoDup (map sort_key rows_two_days).
Proof.
  assert (Hrun : create_stock_csv df_two_days caps_two_days
                 = Ok rows_two_days) by (vm_compute; reflexivity).
  split; [exact Hrun|].
  exact (@output_keys_distinct _ _ _ Hrun).
Defined.

Lemma key_le_antisym (a b : Z * Z * Z) : key_le a b -> key_le b a -> a = b.
Proof.
  destruct a as [[d1 h1] l1], b as [[d2 h2] l2]. unfold key_le.
  intros H1 H2.
  assert (d1 = d2 /\ h1 = h2 /\ l1 = l2) as (-> & -> & ->) by lia.
  reflexivity.
Qed.

Lemma ascending_by_key_unique (l1 : list StockRow) :
  forall l2,
    NoDup (map sort_key l1) -> Permutation l1 l2 ->
    ascending_by_key l1 -> ascending_by_key l2 ->
    l1 = l2.
Proof.
  unfold ascending_by_key.
  induction l1 as [|a l1 IH]; intros l2 Hnd Hp H1 H2.
  - apply Permutation_nil in Hp. now subst.
  - destruct l2 as [|b l2];
      [apply Permutation_sym, Permutation_nil in Hp; discriminate|].
    inversion H1 as [|? ? H1' Ha]; subst.
    inversion H2 as [|? ? H2' Hb]; subst.
    inversion Hnd as [|? ? Hnin Hnd']; subst.
    rewrite Forall_forall in Ha, Hb.
    assert (Hab : a = b).
    { assert (Ha2 : In a (b :: l2))
        by (apply (Permutation_in _ Hp); now left).
      assert (Hb1 : In b (a :: l1))
        by (apply (Permutation_in _ (Permutation_sym Hp)); now left).
      destruct Ha2 as [E|Ha2]; [now symmetry|].
      destruct Hb1 as [E|Hb1]; [exact E|].
      exfalso. apply Hnin.
      rewrite (@key_le_antisym _ _ (Ha _ Hb1) (Hb _ Ha2)).
      now apply in_map. }
    subst b. f_equal. apply IH; try assumption.
    now apply Permutation_cons_inv in Hp.
Qed.

(** X15. The final [sort_values(['day', 'hour', 'loc_id'])] has a single
    possible outcome: two arrangements of the rows of a successful run that
    are both ascending by (day, hour, loc_id) are the same list, so the
    output does not depend on how the sort breaks ties. *)
Theorem final_order_is_unique
    (df_test : DataFrame) (capacity_dict : capacity_table)
    (rows out1 out2 : list StockRow) :
  create_stock_csv df_test capacity_dict = Ok rows ->
  Permutation rows out1 -> Permutation rows out2 ->
  ascending_by_key out1 -> ascending_by_key out2 ->
  out1 = out2.
Proof.
  intros Hrun Hp1 Hp2 Hs1 Hs2.
  apply ascending_by_key_unique; try assumption.
  - apply results_distinct_keys in Hrun.
    apply Permutation_NoDup with (l := map sort_key rows);
      [now apply Permutation_map | exact Hrun].
  - now rewrite <- Hp1.
Qed.

Lemma final_order_is_unique_witness :
  create_stock_csv df_interleaved [(7%Z, Num 5); (8%Z, Num 5)]
    = Ok rows_interleaved /\
  Permutation rows_interleaved out_interleaved /\
  Permutation rows_interleaved out_interleaved /\
  ascending_by_key out_interleaved /\
  ascending_by_key out_interleaved /\
  out_interleaved = out_interleaved.
Proof.
  assert (Hrun : create_stock_csv df_interleaved [(7%Z, Num 5); (8%Z, Num 5)]
                 = Ok rows_interleaved) by (vm_compute; reflexivity).
  assert (Hp : Permutation rows_interleaved out_interleaved)
    by (apply perm_skip, perm_swap).
  assert (Hs : ascending_by_key out_interleaved).
  { unfold ascending_by_key, out_interleaved.
    repeat first [apply SSorted_nil | apply SSorted_cons
                 | apply Forall_nil | apply Forall_cons];
      cbv [key_le sort_key row_day row_hour row_loc source_row
           day hour loc_id]; lia. }
  split; [exact Hrun|]. split; [exact Hp|]. split; [exact Hp|].
  split; [exact Hs|]. split; [exact Hs|].
  exact (@final_order_is_unique _ _ _ _ _ Hrun Hp Hp Hs Hs).
Defined.

(* ------------------------------------------------------------------ *)
(** * The order of the input records *)

Lemma sorted_unique_permutation (l l' : list Z) :
  Permutation l l' -> sorted (unique l) = sorted (unique l').
Proof.
  intros Hp. apply ascending_same_elements; try apply sorted_unique_ascending.
  intros x. rewrite !sorted_unique_In. split; apply Permutation_in;
    [exact Hp | now symmetry].
Qed.

Lemma group_of_permutation (df df' : DataFrame) (d l : Z) :
  Permutation df df' -> Permutation (group_of df d l) (group_of df' d l).
Proof.
  intros Hp. unfold group_of, select_loc, select_day.
  now do 2 apply filter_permutation.
Qed.

Lemma group_hours_NoDup (df : DataFrame) (d l : Z) :
  NoDup (map record_key df) -> NoDup (map hour (group_of df d l)).
Proof.
  unfold group_of, select_loc, select_day.
  induction df as [|r df IH]; simpl; intros Hnd; [constructor|].
  inversion Hnd as [|? ? Hnin Hnd']; subst.
  destruct (day r =? d)%Z eqn:Ed; simpl; [|now apply IH].
  destruct (loc_id r =? l)%Z eqn:El; simpl; [|now apply IH].
  apply Z.eqb_eq in Ed, El.
  constructor; [|now apply IH].
  intros Hin. apply in_map_iff in Hin. destruct Hin as (r' & Eh & Hr').
  apply filter_In in Hr'. destruct Hr' as [Hr' El'].
  apply filter_In in Hr'. destruct Hr' as [Hr' Ed'].
  apply Z.eqb_eq in Ed', El'.
  apply Hnin. apply in_map_iff. exists r'. split; [|exact Hr'].
  unfold record_key. congruence.
Qed.

Lemma group_rows_permutation (g g' : DataFrame) (capacity : option cell) :
  NoDup (map hour g) -> Permutation g g' ->
  group_rows g capacity = group_rows g' capacity /\
  group_raises g capacity = group_raises g' capacity.
Proof.
  intros Hnd Hp. unfold group_rows, group_raises.
  destruct g as [|r rest].
  - apply Permutation_nil in Hp. subst g'. auto.
  - destruct g' as [|r' rest'];
      [apply Permutation_sym, Permutation_nil in Hp; discriminate|].
    destruct capacity as [[c|]|]; auto. split; [|reflexivity].
    rewrite <- (@find_optimal_permutation (r :: rest) (r' :: rest') c Hnd Hp).
    destruct (find_optimal_initial_stock (r :: rest) c) as [st|e];
      [|reflexivity].
    destruct (best_stock_by_hour st) as [sbh|]; [|reflexivity].
    apply map_ext. intros e. f_equal. unfold first_row.
    now rewrite (@select_hour_permutation (r :: rest) (r' :: rest') (fst e)).
Qed.

Lemma existsb_ext (A : Type) (f g : A -> bool) (l : list A) :
  (forall x, f x = g x) -> existsb f l = existsb g l.
Proof.
  intros H. induction l as [|x l IH]; simpl; [reflexivity|].
  now rewrite H, IH.
Qed.

(** X16. When no (day, hour, station) is recorded twice, the result of
    [create_stock_csv] does not depend on the order of the input records; in
    particular the sort in [load_data] has no influence on it. *)
Theorem record_order_irrelevant
    (df_test df_test' : DataFrame) (capacity_dict : capacity_table) :
  NoDup (map record_key df_test) ->
  Permutation df_test df_test' ->
  create_stock_csv df_test capacity_dict
  = create_stock_csv df_test' capacity_dict.
Proof.
  intros Hnd Hp. rewrite !create_stock_csv_closed.
  rewrite <- (@sorted_unique_permutation (map day df_test)
                (map day df_test')) by now apply Permutation_map.
  rewrite <- (@sorted_unique_permutation (map loc_id df_test)
                (map loc_id df_test')) by now apply Permutation_map.
  assert (Hg : forall d l,
             group_rows (group_of df_test d l) (dict_get l capacity_dict)
             = group_rows (group_of df_test' d l) (dict_get l capacity_dict)
             /\
             group_raises (group_of df_test d l) (dict_get l capacity_dict)
             = group_raises (group_of df_test' d l)
                            (dict_get l capacity_dict)).
  { intros d l. apply group_rows_permutation.
    - now apply group_hours_NoDup.
    - now apply group_of_permutation. }
  rewrite (@existsb_ext _
             (fun d => existsb (fun l => group_raises (group_of df_test d l)
                                           (dict_get l capacity_dict))
                               (sorted (unique (map loc_id df_test))))
             (fun d => existsb (fun l => group_raises (group_of df_test' d l)
                                           (dict_get l capacity_dict))
                               (sorted (unique (map loc_id df_test)))))
    by (intros d; apply existsb_ext; intros l; apply Hg).
  destruct (existsb _ (sorted (unique (map day df_test)))); [reflexivity|].
  f_equal. apply flat_map_ext. intros d. apply flat_map_ext. intros l.
  apply Hg.
Qed.

Lemma record_order_irrelevant_witness :
  NoDup (map record_key df_two_days) /\
  Permutation df_two_days (rev df_two_days) /\
  create_stock_csv df_two_days caps_two_days
  = create_stock_csv (rev df_two_days) caps_two_days.
Proof.
  assert (Hnd : NoDup (map record_key df_two_days)).
  { simpl. repeat constructor; simpl; intuition discriminate. }
  assert (Hp : Permutation df_two_days (rev df_two_days))
    by apply Permutation_rev.
  split; [exact Hnd|]. split; [exact Hp|].
  exact (@record_order_irrelevant _ _ caps_two_days Hnd Hp).
Defined.

(* ------------------------------------------------------------------ *)
(** * The capacity dictionary *)

Lemma dict_get_table_set (k k' : Z) (v : cell) (d : capacity_table) :
  dict_get k (table_set k' v d)
  = if (k' =? k)%Z then Some v else dict_get k d.
Proof.
  induction d as [|[a w] d IH]; simpl; [reflexivity|].
  destruct (a =? k')%Z eqn:Ea; simpl.
  - apply Z.eqb_eq in Ea. subst a.
    destruct (k' =? k)%Z; reflexivity.
  - rewrite IH. destruct (a =? k)%Z eqn:Eak; [|reflexivity].
    apply Z.eqb_eq in Eak. subst a. now rewrite Z.eqb_sym, Ea.
Qed.

Lemma last_listed_cons (k : Z) (kv : Z * cell) (rows : list (Z * cell)) :
  last_listed k (kv :: rows)
  = match last_listed k rows with
    | Some v => Some v
    | None => if (fst kv =? k)%Z then Some (snd kv) else None
    end.
Proof.
  unfold last_listed. simpl rev. rewrite filter_app, map_app.
  destruct (map snd (filter (fun kv0 => (fst kv0 =? k)%Z) (rev rows)))
    as [|v vs]; simpl; [|reflexivity].
  destruct (fst kv =? k)%Z; reflexivity.
Qed.

Lemma fold_table_set (k : Z) (rows : list (Z * cell)) :
  forall d,
    dict_get k (fold_left (fun d kv => table_set (fst kv) (snd kv) d) rows d)
    = match last_listed k rows with
      | Some v => Some v
      | None => dict_get k d
      end.
Proof.
  induction rows as [|kv rows IH]; intros d; [reflexivity|].
  cbn [fold_left]. rewrite IH, last_listed_cons, dict_get_table_set.
  destruct (last_listed k rows); [reflexivity|].
  destruct (fst kv =? k)%Z; reflexivity.
Qed.

Lemma last_listed_None (k : Z) (rows : list (Z * cell)) :
  last_listed k rows = None <-> ~ In k (map fst rows).
Proof.
  induction rows as [|kv rows IH]; [simpl; unfold last_listed; simpl; tauto|].
  rewrite last_listed_cons. simpl.
  destruct (last_listed k rows) as [v|].
  - split; [discriminate|]. intros H. exfalso.
    assert (Hn : ~ In k (map fst rows)) by tauto.
    apply IH in Hn. discriminate.
  - destruct (fst kv =? k)%Z eqn:E.
    + apply Z.eqb_eq in E. split; [discriminate | tauto].
    + apply Z.eqb_neq in E. split; [|reflexivity].
      intros _ [H|H]; [contradiction|]. now apply (proj1 IH eq_refl).
Qed.

(** X17. Looking a station up in the dictionary [load_data] builds returns the
    [Total Docks] of the last row of the capacity file that lists the
    station, and Python's [None] exactly when no row lists it. *)
Theorem capacity_dict_last_row_wins
    (df_capacities : list (Z * cell)) (k : Z) :
  dict_get k (capacity_dict_of df_capacities) = last_listed k df_capacities /\
  (dict_get k (capacity_dict_of df_capacities) = None <->
   ~ In k (map fst df_capacities)).
Proof.
  assert (E : dict_get k (capacity_dict_of df_capacities)
              = last_listed k df_capacities).
  { unfold capacity_dict_of. rewrite fold_table_set.
    now destruct (last_listed k df_capacities). }
  split; [exact E|]. rewrite E. apply last_listed_None.
Qed.

(** Station 7 is listed twice: the second row overrides the first, and its
    entry stays where the first row put it. *)
Example capacity_dict_sample :
  capacity_dict_of [(7%Z, Num 3); (8%Z, NaN); (7%Z, Num 15)]
  = [(7%Z, Num 15); (8%Z, NaN)].
Proof. reflexivity. Qed.

(* ------------------------------------------------------------------ *)
(** * Negative capacities that are not rejected *)

Lemma penalty_pos (capacity x : Q) : capacity < 0 -> 0 < penalty capacity x.
Proof.
  intros Hc. unfold penalty. qcases; try lra.
  rewrite Qabs_neg by lra. lra.
Qed.

Lemma cost_pos (capacity : Q) (ds : list (Z * Q)) (cur : Q) :
  capacity < 0 -> ds <> [] -> 0 < cost capacity ds cur.
Proof.
  intros Hc Hne. destruct ds as [|[h d] ds]; [congruence|]. simpl.
  pose proof (penalty_pos (cur + d) Hc).
  pose proof (cost_nonneg capacity ds (clamp capacity (cur + d))). lra.
Qed.

Lemma ordered_net_demands_nonempty (df : DataFrame) :
  df <> [] -> ordered_net_demands df <> [].
Proof.
  intros Hne E. apply (hours_of_nonempty Hne).
  rewrite <- keys_ordered_net_demands. now rewrite E.
Qed.

(** X18. With a negative capacity every hour takes a clamping branch: for a
    non-empty group the truncation is strictly positive whatever the initial
    stock. *)
Theorem negative_capacity_always_truncates
    (df : DataFrame) (initial_stock capacity : Q) :
  capacity < 0 -> df <> [] ->
  exists sbh t,
    calculate_stock_for_initial_value df initial_stock capacity = Ok (sbh, t) /\
    0 < t.
Proof.
  intros Hc Hne. rewrite calculate_ok. do 2 eexists. split; [reflexivity|].
  rewrite total_cost, Qplus_0_l.
  apply cost_pos; [exact Hc | now apply ordered_net_demands_nonempty].
Qed.

Lemma negative_capacity_always_truncates_witness :
  -5 < 0 /\ df_balanced <> [] /\
  exists sbh t,
    calculate_stock_for_initial_value df_balanced 0 (-5) = Ok (sbh, t) /\
    0 < t.
Proof.
  assert (Hc : -5 < 0) by (unfold Qlt; simpl; lia).
  assert (Hne : df_balanced <> []) by discriminate.
  split; [exact Hc|]. split; [exact Hne|].
  exact (@negative_capacity_always_truncates df_balanced 0 (-5) Hc Hne).
Defined.

Lemma int_gap (x : Q) : -1 < x -> x < 0 -> int x = 0%Z.
Proof.
  destruct x as [n d]. unfold Qlt, int. simpl. intros H1 H2.
  apply Z.quot_small_iff; lia.
Qed.

(** X19. A capacity strictly between -1 and 0 is not caught: [int] truncates it
    to 0, candidate 0 is scanned and returned, so the trajectory of a
    non-empty group starts at stock 0, above the capacity, and the reported
    minimum is strictly positive. *)
Theorem fractional_negative_capacity_is_scanned
    (df : DataFrame) (capacity : Q) :
  -1 < capacity -> capacity < 0 -> df <> [] ->
  exists sbh m,
    find_optimal_initial_stock df capacity
      = Ok (mkScan 0 (Some sbh) (Fin m)) /\
    hd_error (values sbh) = Some 0 /\
    0 < m.
Proof.
  intros H1 H2 Hne.
  destruct (find_optimal_cases df capacity)
    as [[Hn _]|[_ (b & Hrun & Hb & _)]];
    rewrite (int_gap H1 H2) in *; [lia|].
  assert (b = 0%Z) by lia. subst b.
  do 2 eexists. split; [exact Hrun|]. split.
  - destruct (trace_head capacity (ordered_net_demands df) (inject_Z 0))
      as [E|E]; [|exact E].
    exfalso. apply (ordered_net_demands_nonempty Hne).
    destruct (ordered_net_demands df) as [|[h d] ds];
      [reflexivity | discriminate E].
  - unfold trunc_of. rewrite total_cost, Qplus_0_l.
    apply cost_pos; [exact H2 | now apply ordered_net_demands_nonempty].
Qed.

Lemma fractional_negative_capacity_is_scanned_witness :
  -1 < -1 # 2 /\ -1 # 2 < 0 /\ df_balanced <> [] /\
  exists sbh m,
    find_optimal_initial_stock df_balanced (-1 # 2)
      = Ok (mkScan 0 (Some sbh) (Fin m)) /\
    hd_error (values sbh) = Some 0 /\
    0 < m.
Proof.
  assert (H1 : -1 < -1 # 2) by (unfold Qlt; simpl; lia).
  assert (H2 : -1 # 2 < 0) by (unfold Qlt; simpl; lia).
  assert (Hne : df_balanced <> []) by discriminate.
  split; [exact H1|]. split; [exact H2|]. split; [exact Hne|].
  exact (@fractional_negative_capacity_is_scanned df_balanced (-1 # 2)
           H1 H2 Hne).
Defined.
